(** * commit.py: committing renders with USD + luxtest revision information

    A shallow embedding of [src/commit.py].  The script is a sequence of
    sub-process invocations, a little string and path assembly and one
    scoped temporary directory.  It is modelled as a state-and-exception
    monad over a [World] (the part of the file system the script touches
    and the trace of its observable actions); everything the script only
    observes (the environment, the location of the script, the behaviour of
    the [git] executable, of [tempfile] and of [argparse]'s scanner) is a
    field of a [Host].

    Text is [string]; a character stands for one code point below 256.
    Paths follow [posixpath]. *)

From Stdlib Require Import String Ascii List ZArith Bool Lia.
From stdpp Require Import base option gmap strings list fin_maps.
Import ListNotations.
Local Open Scope string_scope.
Local Open Scope list_scope.

(** ** Text helpers (the [str] methods the script calls) *)

Module Str.

Definition nl : string := String "010"%char EmptyString.

Definition chars (s : string) : list ascii := list_ascii_of_string s.
Definition of_chars (l : list ascii) : string := string_of_list_ascii l.

(** [str.isspace] on one code point below 256: TAB..CR, FS..US, space,
    NEL and NBSP. *)
Definition isspace (c : ascii) : bool :=
  let n := nat_of_ascii c in
  (((9 <=? n) && (n <=? 13)) || ((28 <=? n) && (n <=? 32))
   || (n =? 133) || (n =? 160))%nat.

Fixpoint lstrip_chars (l : list ascii) : list ascii :=
  match l with
  | c :: r => if isspace c then lstrip_chars r else l
  | [] => []
  end.

Definition lstrip (s : string) : string := of_chars (lstrip_chars (chars s)).
Definition rstrip (s : string) : string :=
  of_chars (rev (lstrip_chars (rev (chars s)))).

(** [s.strip()] *)
Definition strip (s : string) : string := rstrip (lstrip s).

(** [sep.join(parts)] *)
Fixpoint join (sep : string) (parts : list string) : string :=
  match parts with
  | [] => ""
  | [p] => p
  | p :: rest => p +:+ sep +:+ join sep rest
  end.

(** [s.startswith(p)] *)
Definition startswith (p s : string) : bool := String.prefix p s.

(** [s.endswith("/")] *)
Definition endswith_slash (s : string) : bool :=
  match rev (chars s) with
  | c :: _ => Ascii.eqb c "/"%char
  | [] => false
  end.

(** [bool(s)] for a [str]: true exactly when [s] is not empty. *)
Definition truthy (s : string) : bool :=
  match s with
  | EmptyString => false
  | String _ _ => true
  end.

End Str.

(** ** [posixpath] *)

Module PosixPath.

(** One step of [os.path.join]'s loop: [path] joined with component [b]. *)
Definition join1 (path b : string) : string :=
  if Str.startswith "/" b then b
  else if negb (Str.truthy path) || Str.endswith_slash path then path +:+ b
  else path +:+ "/" +:+ b.

(** [os.path.join(a, *p)] *)
Definition join (a : string) (p : list string) : string :=
  fold_left join1 p a.

Fixpoint drop_to_slash (l : list ascii) : list ascii :=
  match l with
  | c :: r => if Ascii.eqb c "/"%char then l else drop_to_slash r
  | [] => []
  end.

Fixpoint drop_slashes (l : list ascii) : list ascii :=
  match l with
  | c :: r => if Ascii.eqb c "/"%char then drop_slashes r else l
  | [] => []
  end.

(** [os.path.dirname(p)]: [head = p[:p.rfind('/') + 1]], then the
    trailing slashes of [head] are stripped unless [head] consists of
    slashes only. *)
Definition dirname (p : string) : string :=
  let head := drop_to_slash (rev (Str.chars p)) in
  match drop_slashes head with
  | [] => Str.of_chars (rev head)
  | stripped => Str.of_chars (rev stripped)
  end.

End PosixPath.


(** ** Exceptions, events, the world and the host *)

(** The exception classes the script can meet.  [SystemExit] and
    [KeyboardInterrupt] derive from [BaseException] only; the others
    derive from [Exception]. *)
Inductive PyExc : Type :=
| CalledProcessError (returncode : Z) (cmd : list string)
| OSError (detail : string)
| KeyError (key : string)
| AttributeError (detail : string)
| UnicodeDecodeError (detail : string)
| KeyboardInterrupt
| SystemExit (code : Z).

(** [isinstance(e, Exception)] *)
Definition is_Exception (e : PyExc) : bool :=
  match e with
  | SystemExit _ | KeyboardInterrupt => false
  | _ => true
  end.

(** What the script asks of its surroundings, in order.  An event is
    recorded when the request is made, whether or not it succeeds. *)
Inductive Event : Type :=
| EvPrint (text : string)                    (* print(repo_dir) *)
| EvPrintArgs (args : list string)           (* print(full_args) *)
| EvRun (cwd : string) (args : list string)  (* subprocess.run *)
| EvMkdtemp (prefix : string)                (* tempfile: make a directory *)
| EvWrite (path content : string)            (* open(path, "w") and write *)
| EvRmtree (path : string)                   (* remove a directory tree *)
| EvTraceback (e : PyExc).                   (* traceback.print_exc() *)

(** The world holds the directories and files the script itself makes
    and removes, and the trace.  What a child process does to a
    repository is not part of it: it shows in the answers of the child
    processes that follow, which may depend on the whole world. *)
Record World : Type := mkWorld {
  fs_dirs : gset string;
  fs_files : gmap string string;
  trace : list Event;
}.

Definition log (ev : Event) (w : World) : World :=
  mkWorld (fs_dirs w) (fs_files w) (trace w ++ [ev]).

(** How [subprocess.run] ends: the child exits with a status and [out]
    is what [proc.stdout] holds when the output is captured; or the child
    cannot be started at all (an [OSError], for instance when [cwd] does
    not exist); or [subprocess.run] itself raises something else, such as
    [KeyboardInterrupt] while it waits for the child or
    [UnicodeDecodeError] while it decodes the captured output. *)
Inductive RunOutcome : Type :=
| Exited (returncode : Z) (out : string)
| NotStarted (detail : string)
| Failed (e : PyExc).

(** What [argparse]'s scanner finds in an argument vector for the parser
    of [get_parser]: the values supplied on the command line, or the exit
    status of [parser.error] / [--help]. *)
Inductive Scan : Type :=
| Supplied (message : option string) (extra_paths : list string)
| Exits (code : Z).

Record Host : Type := mkHost {
  environ : gmap string string;        (* os.environ at import time *)
  this_file : string;                  (* THIS_FILE, an absolute path *)
  sys_argv : list string;              (* sys.argv[1:] *)
  getcwd : string;                     (* os.getcwd(), taken to succeed *)
  child : World -> string -> list string -> RunOutcome;
  mkdtemp : World -> string -> string + string;  (* error + fresh path *)
  open_w : World -> string -> option string;     (* error of open(p, "w") *)
  scan_args : list string -> Scan;
}.

(** ** The monad: state passing with exceptions; the world survives a raise *)

Inductive Outcome (A : Type) : Type :=
| Ok (a : A)
| Raise (e : PyExc).
Arguments Ok {A} a.
Arguments Raise {A} e.

Definition Py (A : Type) : Type := World -> Outcome A * World.

#[global] Instance Py_ret : MRet Py := fun A a w => (Ok a, w).

#[global] Instance Py_bind : MBind Py := fun A B f m w =>
  match m w with
  | (Ok a, w') => f a w'
  | (Raise e, w') => (Raise e, w')
  end.

Definition raise {A : Type} (e : PyExc) : Py A := fun w => (Raise e, w).

Definition emit (ev : Event) : Py unit := fun w => (Ok tt, log ev w).

(** [try: body  finally: cleanup] *)
Definition try_finally {A : Type} (body : Py A) (cleanup : Py unit) : Py A :=
  fun w =>
    match body w with
    | (r, w') =>
        match cleanup w' with
        | (Ok _, w'') => (r, w'')
        | (Raise e, w'') => (Raise e, w'')
        end
    end.

(** [try: body  except Exception: handler] *)
Definition try_except_Exception {A : Type} (body : Py A)
    (handler : PyExc -> Py A) : Py A :=
  fun w =>
    match body w with
    | (Ok a, w') => (Ok a, w')
    | (Raise e, w') =>
        if is_Exception e then handler e w' else (Raise e, w')
    end.

(** [[f(x) for x in xs]] *)
Fixpoint for_each {A B : Type} (f : A -> Py B) (xs : list A) : Py (list B) :=
  match xs with
  | [] => mret []
  | x :: rest => y ← f x; ys ← for_each f rest; mret (y :: ys)
  end.

(** [l[i:j] = xs] for [i <= j <= len(l)] *)
Definition slice_assign {A : Type} (i j : nat) (xs l : list A) : list A :=
  take i l ++ xs ++ drop j l.

(** [d.get(key)] on a [dict] kept as an association list with distinct
    keys, in insertion order. *)
Fixpoint dict_get (d : list (string * string)) (key : string)
    : option string :=
  match d with
  | [] => None
  | (k, v) :: rest => if String.eqb k key then Some v else dict_get rest key
  end.

(** ** File system operations on the world *)

Module Fs.

(** [p] is [d] or lies below it: it starts with [d] written as a
    directory, [os.path.join(d, "")]. *)
Definition under (d p : string) : bool :=
  bool_decide (p = d) || Str.startswith (PosixPath.join d [""]) p.

Definition mkdir (d : string) (w : World) : World :=
  mkWorld ({[d]} ∪ fs_dirs w) (fs_files w) (trace w).

Definition write (p content : string) (w : World) : World :=
  mkWorld (fs_dirs w) (<[p := content]> (fs_files w)) (trace w).

(** [shutil.rmtree(d)]: [d] and everything below it goes. *)
Definition rmtree (d : string) (w : World) : World :=
  mkWorld (filter (fun p => under d p = false) (fs_dirs w))
          (filter (fun kv => under d (fst kv) = false) (fs_files w))
          (trace w).

Definition exists_ (p : string) (w : World) : bool :=
  bool_decide (p ∈ fs_dirs w) || bool_decide (is_Some (fs_files w !! p)).

End Fs.

(** ** The script *)

Record CompletedProcess : Type := mkCompleted {
  cp_args : list string;
  cp_returncode : Z;
  cp_stdout : option string;   (* None unless the output is captured *)
}.

(** The result of [parser.parse_args]. *)
Record Namespace : Type := mkNamespace {
  message : string;
  extra_paths : list string;
}.

(** The parser built by [get_parser]: the default of [-m/--message] and
    the [nargs] of the positional [extra_paths]. *)
Record ArgumentParser : Type := mkParser {
  message_default : string;
  extra_paths_nargs : string;
}.

Section Script.

Context (host : Host).

(** *** Constants *)

Definition THIS_DIR : string := PosixPath.dirname (this_file host).
Definition RENDERS_REPO : string := THIS_DIR.
Definition LUXTEST_REPO : string := PosixPath.dirname THIS_DIR.

Definition DEFAULT_USD_REPO : string :=
  PosixPath.join (PosixPath.dirname LUXTEST_REPO) ["usd-ci"; "USD"].

(** [os.environ.get("USD_ROOT", DEFAULT_USD_REPO)] *)
Definition USD_REPO : string :=
  default DEFAULT_USD_REPO (environ host !! "USD_ROOT").

(** A [dict] iterates in insertion order, so it is kept as an
    association list. *)
Definition REPO_NAMES_TO_DIRS : list (string * string) :=
  [("USD", USD_REPO); ("luxtest", LUXTEST_REPO)].

(** [d[key]] *)
Definition dict_getitem (d : list (string * string)) (key : string)
    : Py string :=
  match dict_get d key with
  | Some v => mret v
  | None => raise (KeyError key)
  end.

(** [for name in d] *)
Definition dict_keys (d : list (string * string)) : list string :=
  map fst d.

(** *** Utilities *)

(** [subprocess.run(args, cwd=cwd, check=check, capture_output=...)].
    With [text=True] the captured output is decoded before it is handed
    back: [out] is the decoded text, and a decoding error is the host's
    [Failed (UnicodeDecodeError _)]. *)
Definition subprocess_run (args : list string) (cwd : string)
    (check capture_output : bool) : Py CompletedProcess :=
  fun w =>
    let w' := log (EvRun cwd args) w in
    match child host w cwd args with
    | NotStarted detail => (Raise (OSError detail), w')
    | Failed e => (Raise e, w')
    | Exited rc out =>
        if check && negb (rc =? 0)%Z
        then (Raise (CalledProcessError rc args), w')
        else (Ok (mkCompleted args rc
                    (if capture_output then Some out else None)), w')
    end.

Definition git (repo_dir : string) (args : list string)
    (check capture_output : bool) : Py CompletedProcess :=
  let full_args := "git" :: args in
  emit (EvPrint repo_dir);;
  emit (EvPrintArgs full_args);;
  subprocess_run full_args repo_dir check capture_output.

Definition git_stdout (repo_dir : string) (args : list string) : Py string :=
  proc ← git repo_dir args true true;
  match cp_stdout proc with
  | Some out => mret (Str.strip out)
  | None => raise (AttributeError "strip")
  end.

Definition get_git_hash (repo_dir commit : string) : Py string :=
  git_stdout repo_dir ["rev-parse"; commit].

Definition git_commit_subject (repo_dir commit : string) : Py string :=
  git_stdout repo_dir ["log"; "-1"; "--format=%s"; commit].

Definition get_repo_info (repo_name : string) : Py string :=
  repo_dir ← dict_getitem REPO_NAMES_TO_DIRS repo_name;
  commit_hash ← get_git_hash repo_dir "HEAD";
  message_subject ← git_commit_subject repo_dir "HEAD";
  mret (repo_name +:+ ":" +:+ Str.nl +:+ message_subject
          +:+ Str.nl +:+ commit_hash).

(** *** The temporary directory and the template file *)

Definition cleanup (d : string) : Py unit :=
  fun w => (Ok tt, log (EvRmtree d) (Fs.rmtree d w)).

(** [with tempfile.TemporaryDirectory(prefix=prefix) as tempd: body].
    [mkdtemp] never hands out an existing path; when the host proposes
    one, the candidates count as exhausted. *)
Definition with_TemporaryDirectory {A : Type} (prefix : string)
    (body : string -> Py A) : Py A :=
  fun w =>
    let w' := log (EvMkdtemp prefix) w in
    match mkdtemp host w prefix with
    | inl detail => (Raise (OSError detail), w')
    | inr tempd =>
        if Fs.exists_ tempd w then (Raise (OSError "FileExistsError"), w')
        else try_finally (body tempd) (cleanup tempd) (Fs.mkdir tempd w')
    end.

(** [with open(path, "w", encoding="utf8") as writer: writer.write(text)] *)
Definition write_text (path text : string) : Py unit :=
  fun w =>
    let w' := log (EvWrite path text) w in
    match open_w host w path with
    | Some detail => (Raise (OSError detail), w')
    | None => (Ok tt, Fs.write path text w')
    end.

(** *** Core functions *)

Definition placeholder : string := "<insert custom message here>".

Definition commit_renders (message : string) (extra_paths : list string)
    : Py unit :=
  message_parts ← for_each get_repo_info (dict_keys REPO_NAMES_TO_DIRS);
  let commit_args := ["commit"; "-a"] in
  (* os.getcwd() is taken to succeed: the working directory exists *)
  let cwd := getcwd host in
  let commit_args :=
    commit_args ++ map (fun p => PosixPath.join cwd [p]) extra_paths in
  if Str.truthy message then
    let message_parts := message :: message_parts in
    let full_message := Str.join (Str.nl +:+ Str.nl) message_parts in
    let commit_args := slice_assign 1 1 ["-m"; full_message] commit_args in
    git RENDERS_REPO commit_args true false;;
    mret tt
  else
    with_TemporaryDirectory "luxtest_renders_commit" (fun tempd =>
      let template_path := PosixPath.join tempd ["git_commit_template.txt"] in
      let message_parts := placeholder :: message_parts in
      let full_message := Str.join (Str.nl +:+ Str.nl) message_parts in
      write_text template_path full_message;;
      let commit_args :=
        slice_assign 0 0 ["-c"; "commit.template=" +:+ template_path]
          commit_args in
      git RENDERS_REPO commit_args true false;;
      mret tt).

(** A call [commit_renders(...)] in which an argument may be left out:
    the defaults of the signature are [message=""], [extra_paths=()]. *)
Definition commit_renders_call (message : option string)
    (extra_paths : option (list string)) : Py unit :=
  commit_renders (default "" message) (default [] extra_paths).

(** *** CLI *)

Definition get_parser : ArgumentParser :=
  mkParser "" "*".

(** [parser.parse_args(argv)]: the values the scanner found, with the
    parser's defaults for what was not supplied; a rejected vector (or
    [--help]) leaves through [sys.exit]. *)
Definition parse_args (parser : ArgumentParser) (argv : list string)
    : Py Namespace :=
  match scan_args host argv with
  | Exits code => raise (SystemExit code)
  | Supplied m paths =>
      mret (mkNamespace (default (message_default parser) m) paths)
  end.

Definition main (argv : option (list string)) : Py Z :=
  let argv := default (sys_argv host) argv in
  let parser := get_parser in
  args ← parse_args parser argv;
  returned ← try_except_Exception
    (commit_renders (message args) (extra_paths args);; mret None)
    (fun e => emit (EvTraceback e);; mret (Some 1%Z));
  match returned with
  | Some code => mret code
  | None => mret 0%Z
  end.

End Script.

(** ** A concrete host, on which the script can be run *)

Module Demo.

Definition rev_parse_out : string := "4f2a9c1" +:+ Str.nl.
Definition subject_out : string := "Add area light renders" +:+ Str.nl.

(** Which invocations fail: none, all in one directory, or [git log]
    in one directory. *)
Definition nowhere (cwd : string) (args : list string) : bool := false.

Definition in_dir (d cwd : string) (args : list string) : bool :=
  String.eqb cwd d.

Definition log_in (d cwd : string) (args : list string) : bool :=
  String.eqb cwd d
  && match args with
     | "git" :: "log" :: _ => true
     | _ => false
     end.

(** A [git] that answers [rev-parse] and [log], and commits; the
    invocations selected by [fails] exit with status 128. *)
Definition child_with (fails : string -> list string -> bool) (_ : World)
    (cwd : string) (args : list string) : RunOutcome :=
  if fails cwd args then Exited 128 ""
  else match args with
       | ["git"; "rev-parse"; "HEAD"] => Exited 0 rev_parse_out
       | ["git"; "log"; "-1"; "--format=%s"; "HEAD"] =>
           Exited 0 subject_out
       | _ => Exited 0 ""
       end.

(** A scanner for vectors made of [-m VALUE] and plain paths; any other
    word that starts with a dash is rejected with status 2, as is a
    trailing [-m]. *)
Fixpoint scan (argv : list string) (want_value : bool)
    (msg : option string) (paths : list string) : Scan :=
  match argv with
  | [] => if want_value then Exits 2 else Supplied msg (rev paths)
  | a :: rest =>
      if want_value then scan rest false (Some a) paths
      else if String.eqb a "-m" || String.eqb a "--message"
      then scan rest true msg paths
      else if Str.startswith "-" a then Exits 2
      else scan rest false msg (a :: paths)
  end.

Definition host_with (env : gmap string string)
    (fails : string -> list string -> bool) : Host :=
  mkHost env "/work/luxtest/renders/commit.py" [] "/work/luxtest/renders"
    (child_with fails)
    (fun _ prefix => inr ("/tmp/" +:+ prefix +:+ "k3x9q2ab"))
    (fun _ _ => None)
    (fun argv => scan argv false None []).

Definition host : Host := host_with ∅ nowhere.
Definition host_env : Host := host_with {["USD_ROOT" := "/opt/USD"]} nowhere.

(** Hosts on which one step fails. *)
Definition host_no_luxtest : Host := host_with ∅ (in_dir "/work/luxtest").
Definition host_no_log : Host := host_with ∅ (log_in "/work/luxtest").
Definition host_no_commit : Host :=
  host_with ∅ (in_dir "/work/luxtest/renders").

Definition world : World := mkWorld ∅ ∅ [].

End Demo.


(** ** Vocabulary of the statements *)

(** The blank line between the parts of the message. *)
Definition blank : string := Str.nl +:+ Str.nl.

(** The world in which [git(repo_dir, args)] starts its child process:
    the directory and the full argument list have been printed. *)
Definition announced (repo_dir : string) (args : list string) (w : World)
    : World :=
  log (EvPrintArgs ("git" :: args)) (log (EvPrint repo_dir) w).

(** The world [git(repo_dir, args)] leaves behind, whatever the outcome. *)
Definition ran (repo_dir : string) (args : list string) (w : World) : World :=
  log (EvRun repo_dir ("git" :: args)) (announced repo_dir args w).

(** What [git(repo_dir, args, check=True)] makes of the child's end. *)
Definition checked (cmd : list string) (o : RunOutcome) : Outcome string :=
  match o with
  | NotStarted detail => Raise (OSError detail)
  | Failed e => Raise e
  | Exited rc out =>
      if (rc =? 0)%Z then Ok out else Raise (CalledProcessError rc cmd)
  end.

Definition rev_parse_HEAD : list string := ["rev-parse"; "HEAD"].
Definition log_subject_HEAD : list string :=
  ["log"; "-1"; "--format=%s"; "HEAD"].

(** Events that create something in the file system. *)
Definition creates (ev : Event) : bool :=
  match ev with
  | EvMkdtemp _ | EvWrite _ _ => true
  | _ => false
  end.

(** [w'] continues [w] without creating anything: the file system is the
    same and the new events are prints and child processes only. *)
Definition extends_quietly (w w' : World) : Prop :=
  fs_dirs w' = fs_dirs w /\ fs_files w' = fs_files w /\
  exists added, trace w' = trace w ++ added /\
                Forall (fun ev => creates ev = false) added.

Definition quiet {A : Type} (m : Py A) : Prop :=
  forall w, extends_quietly w (snd (m w)).

(** Forget the value of a successful outcome. *)
Definition void {A : Type} (o : Outcome A) : Outcome unit :=
  match o with
  | Ok _ => Ok tt
  | Raise e => Raise e
  end.

(** The directories in which child processes were started, in order. *)
Definition run_dirs (events : list Event) : list string :=
  omap (fun ev => match ev with
                  | EvRun cwd _ => Some cwd
                  | _ => None
                  end) events.

(** Events in which the script only prints or starts a child process. *)
Definition talks (ev : Event) : bool :=
  match ev with
  | EvPrint _ | EvPrintArgs _ | EvRun _ _ => true
  | _ => false
  end.

(** ** The module as a script *)




(** ** Hosts on which the surroundings fail *)

Module Faults.

(** No [git] executable: the child process cannot be started. *)
Definition host_no_git : Host :=
  mkHost ∅ "/work/luxtest/renders/commit.py" [] "/work/luxtest/renders"
    (fun _ _ _ => NotStarted "No such file or directory: 'git'")
    (fun _ prefix => inr ("/tmp/" +:+ prefix +:+ "k3x9q2ab"))
    (fun _ _ => None)
    (fun argv => Demo.scan argv false None []).

(** No usable temporary directory. *)
Definition host_no_tmp : Host :=
  mkHost ∅ "/work/luxtest/renders/commit.py" [] "/work/luxtest/renders"
    (Demo.child_with Demo.nowhere)
    (fun _ _ => inl "No usable temporary directory found")
    (fun _ _ => None)
    (fun argv => Demo.scan argv false None []).

(** The template file cannot be opened. *)
Definition host_no_open : Host :=
  mkHost ∅ "/work/luxtest/renders/commit.py" [] "/work/luxtest/renders"
    (Demo.child_with Demo.nowhere)
    (fun _ prefix => inr ("/tmp/" +:+ prefix +:+ "k3x9q2ab"))
    (fun _ _ => Some "No space left on device")
    (fun argv => Demo.scan argv false None []).

(** The user interrupts the commit: [subprocess.run] raises
    [KeyboardInterrupt] in the renders repository. *)
Definition child_interrupted (w : World) (cwd : string)
    (args : list string) : RunOutcome :=
  if String.eqb cwd "/work/luxtest/renders" then Failed KeyboardInterrupt
  else Demo.child_with Demo.nowhere w cwd args.

Definition host_interrupted : Host :=
  mkHost ∅ "/work/luxtest/renders/commit.py" [] "/work/luxtest/renders"
    child_interrupted
    (fun _ prefix => inr ("/tmp/" +:+ prefix +:+ "k3x9q2ab"))
    (fun _ _ => None)
    (fun argv => Demo.scan argv false None []).

(** A world in which a render and a directory are already there. *)
Definition world_with_render : World :=
  mkWorld {["/work/luxtest/renders"]}
    {["/work/luxtest/renders/a.png" := "PNG"]} [].

End Faults.

(** ** The definitions at work *)

Example dirname_runs :
  PosixPath.dirname "/work/luxtest/renders/commit.py" = "/work/luxtest/renders"
  /\ PosixPath.dirname "/work" = "/"
  /\ PosixPath.dirname "work" = ""
  /\ PosixPath.dirname "/work/luxtest//renders" = "/work/luxtest".
Proof. repeat split. Qed.

Example join_runs :
  PosixPath.join "/work" ["usd-ci"; "USD"] = "/work/usd-ci/USD"
  /\ PosixPath.join "/work/" ["a.png"] = "/work/a.png"
  /\ PosixPath.join "/work" ["/x/b.png"] = "/x/b.png"
  /\ PosixPath.join "/work" [] = "/work".
Proof. repeat split. Qed.

Example strip_runs :
  Str.strip (" 4f2a9c1 " +:+ Str.nl) = "4f2a9c1"
  /\ Str.strip (Str.nl +:+ "Add area light renders" +:+ Str.nl)
     = "Add area light renders"
  /\ Str.strip "  " = "".
Proof. repeat split. Qed.

Example slice_assign_runs :
  slice_assign 1 1 ["-m"; "text"] ["commit"; "-a"; "a.png"]
    = ["commit"; "-m"; "text"; "-a"; "a.png"]
  /\ slice_assign 0 0 ["-c"; "k=v"] ["commit"; "-a"]
     = ["-c"; "k=v"; "commit"; "-a"].
Proof. repeat split. Qed.

Example constants_run :
  RENDERS_REPO Demo.host = "/work/luxtest/renders"
  /\ LUXTEST_REPO Demo.host = "/work/luxtest"
  /\ USD_REPO Demo.host = "/work/usd-ci/USD"
  /\ USD_REPO Demo.host_env = "/opt/USD".
Proof. repeat split. Qed.

(** A whole run without a message: exit code 0, and nothing is left in
    the file system. *)
Example main_runs :
  let '(result, w) := main Demo.host_env None Demo.world in
  result = Ok 0%Z /\ elements (fs_dirs w) = []
  /\ map_to_list (fs_files w) = [] /\ length (trace w) = 18.
Proof. vm_compute. repeat split. Qed.

(** ** Running the utilities *)

Section Utilities.

Variable host : Host.

Lemma git_runs repo_dir args capture w :
  git host repo_dir args true capture w =
    (match child host (announced repo_dir args w) repo_dir ("git" :: args) with
     | NotStarted detail => Raise (OSError detail)
     | Failed e => Raise e
     | Exited rc out =>
         if (rc =? 0)%Z
         then Ok (mkCompleted ("git" :: args) rc
                    (if capture then Some out else None))
         else Raise (CalledProcessError rc ("git" :: args))
     end, ran repo_dir args w).
Proof.
  unfold git, emit, subprocess_run, mbind, Py_bind; cbn.
  fold (announced repo_dir args w). fold (ran repo_dir args w).
  destruct (child host _ _ _) as [rc out|detail|e]; [|reflexivity..].
  destruct (rc =? 0)%Z; reflexivity.
Qed.

Lemma git_stdout_runs repo_dir args w :
  git_stdout host repo_dir args w =
    (match checked ("git" :: args)
             (child host (announced repo_dir args w) repo_dir ("git" :: args))
     with
     | Ok out => Ok (Str.strip out)
     | Raise e => Raise e
     end, ran repo_dir args w).
Proof.
  unfold git_stdout, mbind, Py_bind. rewrite git_runs. unfold checked.
  destruct (child host _ _ _) as [rc out|detail|e]; [|reflexivity..].
  destruct (rc =? 0)%Z; reflexivity.
Qed.

Lemma dict_getitem_runs d key w :
  dict_getitem d key w =
    (match dict_get d key with
     | Some v => Ok v
     | None => Raise (KeyError key)
     end, w).
Proof. unfold dict_getitem. destruct (dict_get d key); reflexivity. Qed.

(** [get_repo_info] step by step: the look-up, then [rev-parse], then
    [log], each one ending the call when it fails. *)
Lemma get_repo_info_runs repo_name w :
  get_repo_info host repo_name w =
    match dict_get (REPO_NAMES_TO_DIRS host) repo_name with
    | None => (Raise (KeyError repo_name), w)
    | Some repo_dir =>
        let w1 := ran repo_dir rev_parse_HEAD w in
        match checked ("git" :: rev_parse_HEAD)
                (child host (announced repo_dir rev_parse_HEAD w) repo_dir
                   ("git" :: rev_parse_HEAD)) with
        | Raise e => (Raise e, w1)
        | Ok hash_out =>
            let w2 := ran repo_dir log_subject_HEAD w1 in
            match checked ("git" :: log_subject_HEAD)
                    (child host (announced repo_dir log_subject_HEAD w1)
                       repo_dir ("git" :: log_subject_HEAD)) with
            | Raise e => (Raise e, w2)
            | Ok subject_out =>
                (Ok (repo_name +:+ ":" +:+ Str.nl +:+ Str.strip subject_out
                       +:+ Str.nl +:+ Str.strip hash_out), w2)
            end
        end
    end.
Proof.
  unfold get_repo_info, mbind, Py_bind. rewrite dict_getitem_runs.
  destruct (dict_get _ _) as [repo_dir|]; [|reflexivity].
  unfold get_git_hash, git_commit_subject. rewrite git_stdout_runs.
  fold rev_parse_HEAD.
  destruct (checked _ _) as [hash_out|e]; [|reflexivity].
  rewrite git_stdout_runs. fold log_subject_HEAD.
  destruct (checked _ _) as [subject_out|e]; reflexivity.
Qed.

End Utilities.

(** ** Running [commit_renders] *)

Section Commit.

Variable host : Host.

Lemma git_commit_runs args w :
  (git host (RENDERS_REPO host) args true false;; mret tt) w =
    (void (checked ("git" :: args)
             (child host (announced (RENDERS_REPO host) args w)
                (RENDERS_REPO host) ("git" :: args))),
     ran (RENDERS_REPO host) args w).
Proof.
  unfold mbind, Py_bind. rewrite git_runs. unfold checked.
  destruct (child host _ _ _) as [rc out|detail|e]; [|reflexivity..].
  destruct (rc =? 0)%Z; reflexivity.
Qed.

(** The two configured repositories are asked in the order of the
    dictionary: USD first, luxtest second. *)
Lemma repo_infos_run w iu w1 il w2 :
  get_repo_info host "USD" w = (Ok iu, w1) ->
  get_repo_info host "luxtest" w1 = (Ok il, w2) ->
  for_each (get_repo_info host) (dict_keys (REPO_NAMES_TO_DIRS host)) w
    = (Ok [iu; il], w2).
Proof.
  intros Hu Hl. unfold dict_keys, REPO_NAMES_TO_DIRS.
  cbn [map fst for_each]. unfold mbind, Py_bind. rewrite Hu, Hl.
  reflexivity.
Qed.

(** The branch with a message. *)
Lemma commit_renders_direct msg extra w parts w2 :
  for_each (get_repo_info host) (dict_keys (REPO_NAMES_TO_DIRS host)) w
    = (Ok parts, w2) ->
  Str.truthy msg = true ->
  commit_renders host msg extra w =
    let args :=
      "commit" :: "-m" :: Str.join blank (msg :: parts) :: "-a"
        :: map (fun p => PosixPath.join (getcwd host) [p]) extra in
    (void (checked ("git" :: args)
             (child host (announced (RENDERS_REPO host) args w2)
                (RENDERS_REPO host) ("git" :: args))),
     ran (RENDERS_REPO host) args w2).
Proof.
  intros Hparts Hmsg. unfold commit_renders.
  unfold mbind at 1. unfold Py_bind at 1. rewrite Hparts, Hmsg.
  rewrite git_commit_runs. reflexivity.
Qed.

(** The branch without a message. *)
Lemma commit_renders_template extra w parts w2 :
  for_each (get_repo_info host) (dict_keys (REPO_NAMES_TO_DIRS host)) w
    = (Ok parts, w2) ->
  commit_renders host "" extra w =
    let w3 := log (EvMkdtemp "luxtest_renders_commit") w2 in
    match mkdtemp host w2 "luxtest_renders_commit" with
    | inl detail => (Raise (OSError detail), w3)
    | inr tempd =>
        if Fs.exists_ tempd w2 then (Raise (OSError "FileExistsError"), w3)
        else
          let path := PosixPath.join tempd ["git_commit_template.txt"] in
          let body := Str.join blank (placeholder :: parts) in
          let w4 := Fs.mkdir tempd w3 in
          let w5 := log (EvWrite path body) w4 in
          match open_w host w4 path with
          | Some detail =>
              (Raise (OSError detail), log (EvRmtree tempd) (Fs.rmtree tempd w5))
          | None =>
              let args :=
                "-c" :: ("commit.template=" +:+ path) :: "commit" :: "-a"
                  :: map (fun p => PosixPath.join (getcwd host) [p]) extra in
              let w6 := Fs.write path body w5 in
              (void (checked ("git" :: args)
                       (child host (announced (RENDERS_REPO host) args w6)
                          (RENDERS_REPO host) ("git" :: args))),
               log (EvRmtree tempd)
                 (Fs.rmtree tempd (ran (RENDERS_REPO host) args w6)))
          end
    end.
Proof.
  intros Hparts. unfold commit_renders.
  unfold mbind at 1. unfold Py_bind at 1. rewrite Hparts.
  cbn [Str.truthy]. unfold with_TemporaryDirectory.
  destruct (mkdtemp host w2 _) as [detail|tempd]; [reflexivity|].
  destruct (Fs.exists_ tempd w2); [reflexivity|].
  unfold try_finally, cleanup.
  unfold mbind at 1. unfold Py_bind at 1. unfold write_text.
  destruct (open_w host _ _) as [detail|]; [reflexivity|].
  rewrite git_commit_runs. cbv zeta.
  destruct (void _); reflexivity.
Qed.

End Commit.

(** ** An invariant of the script's building blocks *)

Section Invariants.

Variable host : Host.

Lemma extends_quietly_refl w : extends_quietly w w.
Proof.
  repeat split. exists []. split; [by rewrite app_nil_r | constructor].
Qed.

Lemma extends_quietly_trans w1 w2 w3 :
  extends_quietly w1 w2 -> extends_quietly w2 w3 -> extends_quietly w1 w3.
Proof.
  intros (Hd1 & Hf1 & a1 & Ht1 & Ha1) (Hd2 & Hf2 & a2 & Ht2 & Ha2).
  repeat split; [congruence | congruence |].
  exists (a1 ++ a2). split.
  - by rewrite Ht2, Ht1, app_assoc.
  - by apply Forall_app.
Qed.

Lemma extends_quietly_log ev w :
  creates ev = false -> extends_quietly w (log ev w).
Proof.
  intros Hev. repeat split. exists [ev]. split; [reflexivity|].
  by constructor.
Qed.

Lemma extends_quietly_ran repo_dir args w :
  extends_quietly w (ran repo_dir args w).
Proof.
  unfold ran, announced.
  repeat (eapply extends_quietly_trans;
          [|apply extends_quietly_log; reflexivity]).
  apply extends_quietly_refl.
Qed.

Lemma quiet_bind {A B} (m : Py A) (f : A -> Py B) :
  quiet m -> (forall a, quiet (f a)) -> quiet (m ≫= f).
Proof.
  intros Hm Hf w. unfold mbind, Py_bind. specialize (Hm w).
  destruct (m w) as [[a|e] w1]; cbn in *; [|exact Hm].
  eapply extends_quietly_trans; [exact Hm | apply Hf].
Qed.

Lemma quiet_ret {A} (a : A) : quiet (mret a : Py A).
Proof. intros w. apply extends_quietly_refl. Qed.

Lemma quiet_get_repo_info repo_name : quiet (get_repo_info host repo_name).
Proof.
  intros w. rewrite get_repo_info_runs.
  destruct (dict_get _ _) as [repo_dir|]; [|apply extends_quietly_refl].
  cbv zeta. destruct (checked _ _); cbn [snd];
    [|apply extends_quietly_ran].
  destruct (checked _ _); cbn [snd];
    (eapply extends_quietly_trans; apply extends_quietly_ran).
Qed.

Lemma quiet_for_each {A B} (f : A -> Py B) xs :
  (forall x, quiet (f x)) -> quiet (for_each f xs).
Proof.
  intros Hf. induction xs as [|x rest IH]; cbn [for_each].
  - apply quiet_ret.
  - apply quiet_bind; [apply Hf|]. intros y.
    apply quiet_bind; [apply IH|]. intros ys. apply quiet_ret.
Qed.

End Invariants.

(** ** Repository information *)

(** C7: the directory of the USD repository is the value of [USD_ROOT]
    when the environment has it, and otherwise [usd-ci/USD] next to the
    luxtest repository; this is the directory in which [get_repo_info]
    runs the version-control tool for "USD". *)
Theorem usd_repo_directory (host : Host) (w : World) :
  let dir :=
    match environ host !! "USD_ROOT" with
    | Some value => value
    | None =>
        PosixPath.join (PosixPath.dirname (LUXTEST_REPO host)) ["usd-ci"; "USD"]
    end in
  USD_REPO host = dir /\
  dict_getitem (REPO_NAMES_TO_DIRS host) "USD" w = (Ok dir, w) /\
  exists later,
    trace (snd (get_repo_info host "USD" w)) =
      trace w ++ EvPrint dir :: EvPrintArgs ["git"; "rev-parse"; "HEAD"]
              :: EvRun dir ["git"; "rev-parse"; "HEAD"] :: later.
Proof.
  assert (Hdir : USD_REPO host =
                 match environ host !! "USD_ROOT" with
                 | Some value => value
                 | None => PosixPath.join (PosixPath.dirname (LUXTEST_REPO host))
                             ["usd-ci"; "USD"]
                 end).
  { unfold USD_REPO, DEFAULT_USD_REPO.
    destruct (environ host !! "USD_ROOT"); reflexivity. }
  cbv zeta. rewrite <- Hdir. split; [reflexivity|]. split; [reflexivity|].
  rewrite get_repo_info_runs.
  change (dict_get (REPO_NAMES_TO_DIRS host) "USD") with (Some (USD_REPO host)).
  cbv beta iota zeta.
  destruct (checked _ _); cbn [snd].
  - destruct (checked _ _); cbn [snd]; eexists; unfold ran, announced, log;
      cbn [trace]; rewrite <- !app_assoc; reflexivity.
  - exists []. unfold ran, announced, log; cbn [trace].
    rewrite <- !app_assoc. reflexivity.
Qed.

(** C6: when the tool exits non-zero in the directory configured for a
    name, [get_repo_info] raises [CalledProcessError] at that very
    invocation: a failing [rev-parse] is the only child process started,
    a failing [log] is the second and last one; nothing is tried again. *)
Theorem get_repo_info_fails (host : Host) (repo_name repo_dir : string)
    (w : World) (rc : Z) (out : string) :
  dict_get (REPO_NAMES_TO_DIRS host) repo_name = Some repo_dir ->
  rc <> 0%Z ->
  (child host (announced repo_dir ["rev-parse"; "HEAD"] w) repo_dir
     ["git"; "rev-parse"; "HEAD"] = Exited rc out ->
   get_repo_info host repo_name w =
     (Raise (CalledProcessError rc ["git"; "rev-parse"; "HEAD"]),
      mkWorld (fs_dirs w) (fs_files w)
        (trace w ++ [EvPrint repo_dir;
                     EvPrintArgs ["git"; "rev-parse"; "HEAD"];
                     EvRun repo_dir ["git"; "rev-parse"; "HEAD"]])))
  /\
  (forall hash_out,
     let w1 := ran repo_dir ["rev-parse"; "HEAD"] w in
     child host (announced repo_dir ["rev-parse"; "HEAD"] w) repo_dir
       ["git"; "rev-parse"; "HEAD"] = Exited 0 hash_out ->
     child host (announced repo_dir ["log"; "-1"; "--format=%s"; "HEAD"] w1)
       repo_dir ["git"; "log"; "-1"; "--format=%s"; "HEAD"] = Exited rc out ->
     get_repo_info host repo_name w =
       (Raise (CalledProcessError rc
                 ["git"; "log"; "-1"; "--format=%s"; "HEAD"]),
        mkWorld (fs_dirs w) (fs_files w)
          (trace w ++ [EvPrint repo_dir;
                       EvPrintArgs ["git"; "rev-parse"; "HEAD"];
                       EvRun repo_dir ["git"; "rev-parse"; "HEAD"];
                       EvPrint repo_dir;
                       EvPrintArgs ["git"; "log"; "-1"; "--format=%s"; "HEAD"];
                       EvRun repo_dir
                         ["git"; "log"; "-1"; "--format=%s"; "HEAD"]]))).
Proof.
  intros Hdir Hrc.
  assert (Hnz : (rc =? 0)%Z = false) by (apply Z.eqb_neq; exact Hrc).
  split.
  - intros Hchild. rewrite get_repo_info_runs, Hdir. cbv zeta.
    unfold rev_parse_HEAD. rewrite Hchild. cbn [checked]. rewrite Hnz.
    unfold ran, announced, log; cbn [trace fs_dirs fs_files].
    rewrite <- !app_assoc. reflexivity.
  - intros hash_out w1 Hfirst Hsecond. rewrite get_repo_info_runs, Hdir.
    cbv zeta. unfold rev_parse_HEAD, log_subject_HEAD. rewrite Hfirst.
    cbn [checked Z.eqb]. fold w1. rewrite Hsecond. cbn [checked].
    rewrite Hnz. unfold w1, ran, announced, log; cbn [trace fs_dirs fs_files].
    rewrite <- !app_assoc. reflexivity.
Qed.

Lemma get_repo_info_fails_witness :
  get_repo_info Demo.host_no_luxtest "luxtest"
      Demo.world =
    (Raise (CalledProcessError 128 ["git"; "rev-parse"; "HEAD"]),
     mkWorld ∅ ∅ [EvPrint "/work/luxtest";
                  EvPrintArgs ["git"; "rev-parse"; "HEAD"];
                  EvRun "/work/luxtest" ["git"; "rev-parse"; "HEAD"]])
  /\
  get_repo_info Demo.host_no_log "luxtest"
      Demo.world =
    (Raise (CalledProcessError 128 ["git"; "log"; "-1"; "--format=%s"; "HEAD"]),
     mkWorld ∅ ∅ [EvPrint "/work/luxtest";
                  EvPrintArgs ["git"; "rev-parse"; "HEAD"];
                  EvRun "/work/luxtest" ["git"; "rev-parse"; "HEAD"];
                  EvPrint "/work/luxtest";
                  EvPrintArgs ["git"; "log"; "-1"; "--format=%s"; "HEAD"];
                  EvRun "/work/luxtest"
                    ["git"; "log"; "-1"; "--format=%s"; "HEAD"]]).
Proof.
  split.
  - apply (proj1 (get_repo_info_fails
                    Demo.host_no_luxtest
                    "luxtest" "/work/luxtest" Demo.world 128 ""
                    eq_refl ltac:(discriminate))).
    reflexivity.
  - apply (proj2 (get_repo_info_fails
                    Demo.host_no_log
                    "luxtest" "/work/luxtest" Demo.world 128 ""
                    eq_refl ltac:(discriminate)) Demo.rev_parse_out);
      reflexivity.
Defined.

(** C8 as stated does not hold: the value returned for "USD" is one and
    the same text for two hosts whose USD directories differ, so no
    directory field can be read off it. *)
Lemma repo_info_omits_directory :
  ~ exists directory_of : string -> string,
      forall host w info w',
        get_repo_info host "USD" w = (Ok info, w') ->
        directory_of info = USD_REPO host.
Proof.
  intros [directory_of Hproj].
  pose proof (Hproj Demo.host Demo.world _ _ eq_refl) as H1.
  pose proof (Hproj Demo.host_env Demo.world _ _ eq_refl) as H2.
  vm_compute in H1, H2. rewrite H1 in H2. discriminate H2.
Qed.

(** C8 (amended): for a configured name, when [git rev-parse HEAD] and
    then [git log -1 --format=%s HEAD] both succeed in the name's
    directory, [get_repo_info] returns the text made of the name and a
    colon, the stripped subject line and the stripped hash, one per line;
    the directory is not part of it.  Exactly these two invocations are
    made, and the file system is left as it was. *)
Theorem get_repo_info_text (host : Host) (repo_name repo_dir : string)
    (w : World) (hash_out subject_out : string) :
  dict_get (REPO_NAMES_TO_DIRS host) repo_name = Some repo_dir ->
  child host (announced repo_dir ["rev-parse"; "HEAD"] w) repo_dir
    ["git"; "rev-parse"; "HEAD"] = Exited 0 hash_out ->
  child host
    (announced repo_dir ["log"; "-1"; "--format=%s"; "HEAD"]
       (ran repo_dir ["rev-parse"; "HEAD"] w))
    repo_dir ["git"; "log"; "-1"; "--format=%s"; "HEAD"]
    = Exited 0 subject_out ->
  get_repo_info host repo_name w =
    (Ok (repo_name +:+ ":" +:+ Str.nl +:+ Str.strip subject_out
           +:+ Str.nl +:+ Str.strip hash_out),
     mkWorld (fs_dirs w) (fs_files w)
       (trace w ++ [EvPrint repo_dir;
                    EvPrintArgs ["git"; "rev-parse"; "HEAD"];
                    EvRun repo_dir ["git"; "rev-parse"; "HEAD"];
                    EvPrint repo_dir;
                    EvPrintArgs ["git"; "log"; "-1"; "--format=%s"; "HEAD"];
                    EvRun repo_dir
                      ["git"; "log"; "-1"; "--format=%s"; "HEAD"]])).
Proof.
  intros Hdir Hfirst Hsecond. rewrite get_repo_info_runs, Hdir. cbv zeta.
  unfold rev_parse_HEAD, log_subject_HEAD. rewrite Hfirst.
  cbn [checked Z.eqb]. rewrite Hsecond. cbn [checked Z.eqb].
  unfold ran, announced, log; cbn [trace fs_dirs fs_files].
  rewrite <- !app_assoc. reflexivity.
Qed.

Lemma get_repo_info_text_witness :
  fst (get_repo_info Demo.host_env "USD" Demo.world) =
    Ok ("USD:" +:+ Str.nl +:+ "Add area light renders" +:+ Str.nl +:+ "4f2a9c1").
Proof.
  rewrite (get_repo_info_text Demo.host_env "USD" "/opt/USD" Demo.world
             Demo.rev_parse_out Demo.subject_out eq_refl eq_refl eq_refl).
  reflexivity.
Defined.

(** ** Text, paths and the file system *)

Lemma truthy_nonempty (s : string) : Str.truthy s = true <-> s <> "".
Proof. destruct s; cbn; split; try congruence; discriminate. Qed.

Lemma str_app_nil_r (s : string) : s +:+ "" = s.
Proof.
  induction s as [|c s IH]; [reflexivity|].
  change (String c (s +:+ "") = String c s). by f_equal.
Qed.

Lemma str_app_assoc (a b c : string) : (a +:+ b) +:+ c = a +:+ (b +:+ c).
Proof.
  induction a as [|x a IH]; [reflexivity|].
  change (String x ((a +:+ b) +:+ c) = String x (a +:+ (b +:+ c))). by f_equal.
Qed.

Lemma startswith_app (a b : string) : Str.startswith a (a +:+ b) = true.
Proof.
  unfold Str.startswith. induction a as [|x a IH]; [by destruct b|].
  change (String.prefix (String x a) (String x (a +:+ b)) = true).
  cbn [String.prefix]. destruct (ascii_dec x x); [exact IH | congruence].
Qed.

(** [os.path.join(cwd, p)] keeps an absolute [p] as it is. *)
Lemma join_absolute (cwd p : string) :
  Str.startswith "/" p = true -> PosixPath.join cwd [p] = p.
Proof. intros Habs. cbn. unfold PosixPath.join1. by rewrite Habs. Qed.

(** A relative [p] is put below [cwd], with one separator between them. *)
Lemma join_relative (cwd p : string) :
  Str.startswith "/" p = false -> cwd <> "" ->
  Str.endswith_slash cwd = false ->
  PosixPath.join cwd [p] = cwd +:+ "/" +:+ p.
Proof.
  intros Hrel Hne Hslash. cbn. unfold PosixPath.join1.
  rewrite Hrel, Hslash. apply truthy_nonempty in Hne. by rewrite Hne.
Qed.

(** A file named in a directory lies under that directory. *)
Lemma under_join (d name : string) :
  Str.startswith "/" name = false ->
  Fs.under d (PosixPath.join d [name]) = true.
Proof.
  intros Hrel. unfold Fs.under. apply orb_true_iff. right.
  cbn. unfold PosixPath.join1. rewrite Hrel. cbn [Str.startswith String.prefix].
  destruct (negb (Str.truthy d) || Str.endswith_slash d).
  - rewrite str_app_nil_r. apply startswith_app.
  - rewrite <- (str_app_assoc d "/" ""), <- (str_app_assoc d "/" name).
    rewrite str_app_nil_r. apply startswith_app.
Qed.

Lemma under_self (d : string) : Fs.under d d = true.
Proof. unfold Fs.under. by rewrite bool_decide_eq_true_2. Qed.

Lemma rmtree_dir_gone (d : string) (w : World) :
  d ∉ fs_dirs (Fs.rmtree d w).
Proof.
  cbn. rewrite elem_of_filter. intros [Hout _].
  rewrite under_self in Hout. discriminate.
Qed.

Lemma rmtree_files_gone (d p : string) (w : World) :
  Fs.under d p = true -> fs_files (Fs.rmtree d w) !! p = None.
Proof.
  intros Hunder. cbn. apply map_lookup_filter_None_2. right.
  intros content _. cbn. congruence.
Qed.

Lemma join_three (a b c : string) :
  Str.join blank [a; b; c] = a +:+ blank +:+ b +:+ blank +:+ c.
Proof. reflexivity. Qed.

(** ** The commit *)

(** C1: with the information of USD and then of luxtest at hand, the
    message [commit_renders] assembles is the lead, a blank line, the USD
    block, a blank line and the luxtest block; the lead is the message
    given when there is one, and the placeholder otherwise.  With a message
    the text is the value of [-m]; without one it is what is written to the
    template file. *)
Theorem message_body (host : Host) (msg : string) (extra : list string)
    (w w1 w2 : World) (info_usd info_luxtest : string) :
  get_repo_info host "USD" w = (Ok info_usd, w1) ->
  get_repo_info host "luxtest" w1 = (Ok info_luxtest, w2) ->
  let w' := snd (commit_renders host msg extra w) in
  (msg <> "" ->
   let body := msg +:+ blank +:+ info_usd +:+ blank +:+ info_luxtest in
   exists rest,
     trace w' =
       trace w2 ++
         [EvPrint (RENDERS_REPO host);
          EvPrintArgs ("git" :: "commit" :: "-m" :: body :: rest);
          EvRun (RENDERS_REPO host) ("git" :: "commit" :: "-m" :: body :: rest)])
  /\
  (msg = "" ->
   let body :=
     "<insert custom message here>" +:+ blank +:+ info_usd +:+ blank
       +:+ info_luxtest in
   forall tempd,
     mkdtemp host w2 "luxtest_renders_commit" = inr tempd ->
     Fs.exists_ tempd w2 = false ->
     exists later,
       trace w' =
         trace w2 ++
           EvMkdtemp "luxtest_renders_commit"
           :: EvWrite (PosixPath.join tempd ["git_commit_template.txt"]) body
           :: later).
Proof.
  intros Hu Hl w'.
  pose proof (repo_infos_run host w _ w1 _ w2 Hu Hl) as Hparts.
  split.
  - intros Hmsg body. apply truthy_nonempty in Hmsg.
    subst w'. rewrite (commit_renders_direct host msg extra w _ w2 Hparts Hmsg).
    cbv zeta. cbn [snd]. eexists.
    unfold ran, announced, log; cbn [trace]. rewrite <- !app_assoc.
    rewrite join_three. reflexivity.
  - intros -> body tempd Htemp Hfresh. subst w'.
    rewrite (commit_renders_template host extra w _ w2 Hparts).
    cbv zeta. rewrite Htemp, Hfresh, join_three.
    destruct (open_w host _ _) as [detail|]; cbn [snd]; eexists;
      unfold ran, announced, log, Fs.rmtree, Fs.write, Fs.mkdir;
      cbn [trace]; rewrite <- ?app_assoc; reflexivity.
Qed.

Lemma message_body_witness :
  (exists rest,
    trace (snd (commit_renders Demo.host "new renders" ["a.png"] Demo.world)) =
      trace (snd (for_each (get_repo_info Demo.host) ["USD"; "luxtest"]
                    Demo.world)) ++
        [EvPrint "/work/luxtest/renders";
         EvPrintArgs
           ("git" :: "commit" :: "-m"
              :: ("new renders" +:+ blank
                  +:+ ("USD:" +:+ Str.nl +:+ "Add area light renders"
                       +:+ Str.nl +:+ "4f2a9c1")
                  +:+ blank
                  +:+ ("luxtest:" +:+ Str.nl +:+ "Add area light renders"
                       +:+ Str.nl +:+ "4f2a9c1"))
              :: rest);
         EvRun "/work/luxtest/renders"
           ("git" :: "commit" :: "-m"
              :: ("new renders" +:+ blank
                  +:+ ("USD:" +:+ Str.nl +:+ "Add area light renders"
                       +:+ Str.nl +:+ "4f2a9c1")
                  +:+ blank
                  +:+ ("luxtest:" +:+ Str.nl +:+ "Add area light renders"
                       +:+ Str.nl +:+ "4f2a9c1"))
              :: rest)])
  /\
  exists later,
    trace (snd (commit_renders Demo.host "" [] Demo.world)) =
      trace (snd (for_each (get_repo_info Demo.host) ["USD"; "luxtest"]
                    Demo.world)) ++
        EvMkdtemp "luxtest_renders_commit"
        :: EvWrite "/tmp/luxtest_renders_commitk3x9q2ab/git_commit_template.txt"
             ("<insert custom message here>" +:+ blank
              +:+ ("USD:" +:+ Str.nl +:+ "Add area light renders"
                   +:+ Str.nl +:+ "4f2a9c1")
              +:+ blank
              +:+ ("luxtest:" +:+ Str.nl +:+ "Add area light renders"
                   +:+ Str.nl +:+ "4f2a9c1"))
        :: later.
Proof.
  split.
  - apply (proj1 (message_body Demo.host "new renders" ["a.png"] Demo.world
                    _ _ _ _ eq_refl eq_refl)).
    discriminate.
  - apply (proj2 (message_body Demo.host "" [] Demo.world
                    _ _ _ _ eq_refl eq_refl) eq_refl
             "/tmp/luxtest_renders_commitk3x9q2ab" eq_refl eq_refl).
Defined.

(** C4: with a non-empty message no temporary directory and no template
    file is asked for or made: the file system stays as it was and the
    only new events are prints and child processes.  Once both repository
    informations are there, the commit tool is started at once, in the
    renders repository, with [commit -m <full message> -a] followed by the
    extra paths, and its outcome is the outcome of the call. *)
Theorem direct_commit (host : Host) (msg : string) (extra : list string)
    (w : World) :
  msg <> "" ->
  extends_quietly w (snd (commit_renders host msg extra w)) /\
  forall info_usd w1 info_luxtest w2,
    get_repo_info host "USD" w = (Ok info_usd, w1) ->
    get_repo_info host "luxtest" w1 = (Ok info_luxtest, w2) ->
    let full_message :=
      msg +:+ blank +:+ info_usd +:+ blank +:+ info_luxtest in
    let args :=
      ["commit"; "-m"; full_message; "-a"]
        ++ map (fun p => PosixPath.join (getcwd host) [p]) extra in
    commit_renders host msg extra w =
      (void (checked ("git" :: args)
               (child host (announced (RENDERS_REPO host) args w2)
                  (RENDERS_REPO host) ("git" :: args))),
       mkWorld (fs_dirs w2) (fs_files w2)
         (trace w2 ++ [EvPrint (RENDERS_REPO host);
                       EvPrintArgs ("git" :: args);
                       EvRun (RENDERS_REPO host) ("git" :: args)])).
Proof.
  intros Hmsg. split.
  - destruct msg as [|c msg']; [congruence|].
    unfold commit_renders. cbn [Str.truthy].
    apply quiet_bind.
    + apply quiet_for_each, quiet_get_repo_info.
    + intros parts w0. rewrite git_commit_runs. cbn [snd].
      apply extends_quietly_ran.
  - intros info_usd w1 info_luxtest w2 Hu Hl full_message args.
    pose proof (repo_infos_run host w _ w1 _ w2 Hu Hl) as Hparts.
    apply truthy_nonempty in Hmsg.
    rewrite (commit_renders_direct host msg extra w _ w2 Hparts Hmsg).
    cbv zeta. rewrite join_three. fold full_message.
    unfold ran, announced, log; cbn [trace fs_dirs fs_files].
    rewrite <- !app_assoc. reflexivity.
Qed.

Lemma direct_commit_witness :
  commit_renders Demo.host "new renders" ["a.png"; "/x/b.png"] Demo.world =
    (Ok tt,
     mkWorld ∅ ∅
       (trace (snd (for_each (get_repo_info Demo.host) ["USD"; "luxtest"]
                      Demo.world)) ++
          [EvPrint "/work/luxtest/renders";
           EvPrintArgs
             ["git"; "commit"; "-m";
              "new renders" +:+ blank
                +:+ ("USD:" +:+ Str.nl +:+ "Add area light renders"
                     +:+ Str.nl +:+ "4f2a9c1")
                +:+ blank
                +:+ ("luxtest:" +:+ Str.nl +:+ "Add area light renders"
                     +:+ Str.nl +:+ "4f2a9c1");
              "-a"; "/work/luxtest/renders/a.png"; "/x/b.png"];
           EvRun "/work/luxtest/renders"
             ["git"; "commit"; "-m";
              "new renders" +:+ blank
                +:+ ("USD:" +:+ Str.nl +:+ "Add area light renders"
                     +:+ Str.nl +:+ "4f2a9c1")
                +:+ blank
                +:+ ("luxtest:" +:+ Str.nl +:+ "Add area light renders"
                     +:+ Str.nl +:+ "4f2a9c1");
              "-a"; "/work/luxtest/renders/a.png"; "/x/b.png"]])).
Proof.
  apply (proj2 (direct_commit Demo.host "new renders" ["a.png"; "/x/b.png"]
                  Demo.world ltac:(discriminate)) _ _ _ _ eq_refl eq_refl).
Defined.

(** C3: without a message, once both repository informations are there
    and the temporary directory and the template file can be made, the
    file [git_commit_template.txt] in that directory holds the placeholder
    followed by the two blocks when the commit tool is started; the tool is
    started in the renders repository with [-c commit.template=<file>
    commit -a] and the extra paths, with no [-m], so it opens its editor;
    when the call is over, whatever the tool's outcome, the file and the
    directory are gone. *)
Theorem template_commit (host : Host) (extra : list string)
    (w w1 w2 : World) (info_usd info_luxtest tempd : string) :
  get_repo_info host "USD" w = (Ok info_usd, w1) ->
  get_repo_info host "luxtest" w1 = (Ok info_luxtest, w2) ->
  mkdtemp host w2 "luxtest_renders_commit" = inr tempd ->
  Fs.exists_ tempd w2 = false ->
  let template_path := PosixPath.join tempd ["git_commit_template.txt"] in
  let template :=
    "<insert custom message here>" +:+ blank +:+ info_usd +:+ blank
      +:+ info_luxtest in
  let args :=
    ["-c"; "commit.template=" +:+ template_path; "commit"; "-a"]
      ++ map (fun p => PosixPath.join (getcwd host) [p]) extra in
  open_w host (Fs.mkdir tempd (log (EvMkdtemp "luxtest_renders_commit") w2))
    template_path = None ->
  exists w_file,
    tempd ∈ fs_dirs w_file /\
    fs_files w_file !! template_path = Some template /\
    trace w_file =
      trace w2 ++ [EvMkdtemp "luxtest_renders_commit";
                   EvWrite template_path template] /\
    let '(result, w') := commit_renders host "" extra w in
    result =
      void (checked ("git" :: args)
              (child host (announced (RENDERS_REPO host) args w_file)
                 (RENDERS_REPO host) ("git" :: args))) /\
    trace w' =
      trace w_file ++ [EvPrint (RENDERS_REPO host);
                       EvPrintArgs ("git" :: args);
                       EvRun (RENDERS_REPO host) ("git" :: args);
                       EvRmtree tempd] /\
    fs_files w' !! template_path = None /\
    tempd ∉ fs_dirs w'.
Proof.
  intros Hu Hl Htemp Hfresh template_path template args Hopen.
  pose proof (repo_infos_run host w _ w1 _ w2 Hu Hl) as Hparts.
  rewrite (commit_renders_template host extra w _ w2 Hparts).
  cbv zeta. rewrite Htemp, Hfresh, join_three.
  fold template_path. fold template. rewrite Hopen.
  eexists. split; [|split; [|split; [|split; [reflexivity|]]]].
  - cbn. set_solver.
  - cbn [Fs.write fs_files]. apply lookup_insert_eq.
  - cbn [Fs.write Fs.mkdir log trace]. rewrite <- app_assoc. reflexivity.
  - split; [|split].
    + unfold ran, announced, log; cbn [trace Fs.rmtree].
      rewrite <- !app_assoc. reflexivity.
    + apply (rmtree_files_gone tempd template_path
               (ran (RENDERS_REPO host) _ _)).
      by apply under_join.
    + apply (rmtree_dir_gone tempd (ran (RENDERS_REPO host) _ _)).
Qed.

Lemma template_commit_witness :
  exists w_file,
    fs_files w_file
      !! "/tmp/luxtest_renders_commitk3x9q2ab/git_commit_template.txt"
      = Some ("<insert custom message here>" +:+ blank
              +:+ ("USD:" +:+ Str.nl +:+ "Add area light renders"
                   +:+ Str.nl +:+ "4f2a9c1")
              +:+ blank
              +:+ ("luxtest:" +:+ Str.nl +:+ "Add area light renders"
                   +:+ Str.nl +:+ "4f2a9c1")) /\
    fs_files (snd (commit_renders Demo.host "" ["a.png"] Demo.world))
      !! "/tmp/luxtest_renders_commitk3x9q2ab/git_commit_template.txt"
      = None.
Proof.
  destruct (template_commit Demo.host ["a.png"] Demo.world _ _ _ _
              "/tmp/luxtest_renders_commitk3x9q2ab"
              eq_refl eq_refl eq_refl eq_refl eq_refl)
    as (w_file & _ & Hfile & _ & Hrest).
  exists w_file. split; [exact Hfile|].
  destruct (commit_renders Demo.host "" ["a.png"] Demo.world) as [result w'].
  apply Hrest.
Defined.

(** C5: without a message, once the temporary directory has been made,
    it is removed before [commit_renders] is left, whatever happens
    inside: nothing is assumed here about opening the template file or
    about how the commit tool ends (exit status zero, non-zero, or not
    started at all).  The removal is the last thing the call does, and
    when the commit tool was started it comes right after it. *)
Theorem tempdir_removed (host : Host) (extra : list string)
    (w w1 w2 : World) (info_usd info_luxtest tempd : string) :
  get_repo_info host "USD" w = (Ok info_usd, w1) ->
  get_repo_info host "luxtest" w1 = (Ok info_luxtest, w2) ->
  mkdtemp host w2 "luxtest_renders_commit" = inr tempd ->
  Fs.exists_ tempd w2 = false ->
  let w' := snd (commit_renders host "" extra w) in
  (tempd ∉ fs_dirs w') /\
  (forall p, Fs.under tempd p = true -> fs_files w' !! p = None) /\
  (exists before, trace w' = before ++ [EvRmtree tempd]) /\
  (open_w host (Fs.mkdir tempd (log (EvMkdtemp "luxtest_renders_commit") w2))
     (PosixPath.join tempd ["git_commit_template.txt"]) = None ->
   exists before args,
     trace w' =
       before ++ [EvRun (RENDERS_REPO host) ("git" :: "-c" :: args);
                  EvRmtree tempd]).
Proof.
  intros Hu Hl Htemp Hfresh w'.
  pose proof (repo_infos_run host w _ w1 _ w2 Hu Hl) as Hparts.
  subst w'. rewrite (commit_renders_template host extra w _ w2 Hparts).
  cbv zeta. rewrite Htemp, Hfresh.
  destruct (open_w host _ _) as [detail|]; cbn [snd];
    (split; [apply rmtree_dir_gone|]);
    (split; [intros p Hp; by apply rmtree_files_gone|]);
    (split; [eexists; reflexivity|]).
  - discriminate.
  - intros _. eexists _, _. unfold ran at 1. unfold log at 1 2.
    cbn [trace Fs.rmtree]. rewrite <- app_assoc. reflexivity.
Qed.

(** The directory goes both when the commit succeeds and when it fails. *)
Lemma tempdir_removed_witness :
  (fst (commit_renders Demo.host "" [] Demo.world) = Ok tt /\
   "/tmp/luxtest_renders_commitk3x9q2ab"
     ∉ fs_dirs (snd (commit_renders Demo.host "" [] Demo.world)))
  /\
  (fst (commit_renders
          Demo.host_no_commit "" []
          Demo.world)
     = Raise (CalledProcessError 128
                ["git"; "-c";
                 "commit.template=/tmp/luxtest_renders_commitk3x9q2ab/git_commit_template.txt";
                 "commit"; "-a"]) /\
   "/tmp/luxtest_renders_commitk3x9q2ab"
     ∉ fs_dirs (snd (commit_renders
                       Demo.host_no_commit
                       "" [] Demo.world))).
Proof.
  split; (split; [reflexivity|]).
  - apply (tempdir_removed Demo.host [] Demo.world _ _ _ _
             "/tmp/luxtest_renders_commitk3x9q2ab"
             eq_refl eq_refl eq_refl eq_refl).
  - apply (tempdir_removed
             Demo.host_no_commit []
             Demo.world _ _ _ _ "/tmp/luxtest_renders_commitk3x9q2ab"
             eq_refl eq_refl eq_refl eq_refl).
Defined.

(** C9: in both branches the arguments of the commit invocation end with
    the extra paths in the order given, each one being
    [os.path.join(cwd, path)]: an absolute path stays as it is, a relative
    one is put below the current working directory. *)
Theorem extra_paths_appended (host : Host) (msg : string)
    (extra : list string) (w w1 w2 : World) (info_usd info_luxtest : string) :
  get_repo_info host "USD" w = (Ok info_usd, w1) ->
  get_repo_info host "luxtest" w1 = (Ok info_luxtest, w2) ->
  let paths := map (fun p => PosixPath.join (getcwd host) [p]) extra in
  let w' := snd (commit_renders host msg extra w) in
  (msg <> "" ->
   exists before full_message,
     trace w' =
       before ++ [EvRun (RENDERS_REPO host)
                    (["git"; "commit"; "-m"; full_message; "-a"] ++ paths)])
  /\
  (msg = "" ->
   forall tempd,
     mkdtemp host w2 "luxtest_renders_commit" = inr tempd ->
     Fs.exists_ tempd w2 = false ->
     open_w host (Fs.mkdir tempd (log (EvMkdtemp "luxtest_renders_commit") w2))
       (PosixPath.join tempd ["git_commit_template.txt"]) = None ->
     exists before template_option,
       trace w' =
         before ++ [EvRun (RENDERS_REPO host)
                      (["git"; "-c"; template_option; "commit"; "-a"] ++ paths);
                    EvRmtree tempd])
  /\
  (forall p, Str.startswith "/" p = true ->
             PosixPath.join (getcwd host) [p] = p)
  /\
  (forall p, Str.startswith "/" p = false ->
             getcwd host <> "" -> Str.endswith_slash (getcwd host) = false ->
             PosixPath.join (getcwd host) [p] = getcwd host +:+ "/" +:+ p).
Proof.
  intros Hu Hl paths w'.
  pose proof (repo_infos_run host w _ w1 _ w2 Hu Hl) as Hparts.
  split; [|split; [|split]].
  - intros Hmsg. apply truthy_nonempty in Hmsg. subst w'.
    rewrite (commit_renders_direct host msg extra w _ w2 Hparts Hmsg).
    cbv zeta. cbn [snd]. eexists _, _. unfold ran at 1. unfold log at 1.
    cbn [trace]. reflexivity.
  - intros -> tempd Htemp Hfresh Hopen. subst w'.
    rewrite (commit_renders_template host extra w _ w2 Hparts).
    cbv zeta. rewrite Htemp, Hfresh, Hopen. cbn [snd].
    eexists _, _. unfold ran at 1. unfold log at 1 2.
    cbn [trace Fs.rmtree]. rewrite <- app_assoc. reflexivity.
  - intros p. apply join_absolute.
  - intros p. apply join_relative.
Qed.

Lemma extra_paths_appended_witness :
  (exists before full_message,
     trace (snd (commit_renders Demo.host "new renders" ["a.png"; "/x/b.png"]
                   Demo.world)) =
       before ++ [EvRun "/work/luxtest/renders"
                    ["git"; "commit"; "-m"; full_message; "-a";
                     "/work/luxtest/renders/a.png"; "/x/b.png"]])
  /\
  (exists before template_option,
     trace (snd (commit_renders Demo.host "" ["a.png"; "/x/b.png"]
                   Demo.world)) =
       before ++ [EvRun "/work/luxtest/renders"
                    ["git"; "-c"; template_option; "commit"; "-a";
                     "/work/luxtest/renders/a.png"; "/x/b.png"];
                  EvRmtree "/tmp/luxtest_renders_commitk3x9q2ab"])
  /\
  PosixPath.join "/work/luxtest/renders" ["a.png"]
    = "/work/luxtest/renders" +:+ "/" +:+ "a.png".
Proof.
  split; [|split].
  - apply (proj1 (extra_paths_appended Demo.host "new renders"
                    ["a.png"; "/x/b.png"] Demo.world _ _ _ _
                    eq_refl eq_refl)).
    discriminate.
  - apply (proj1 (proj2 (extra_paths_appended Demo.host ""
                           ["a.png"; "/x/b.png"] Demo.world _ _ _ _
                           eq_refl eq_refl))
             eq_refl "/tmp/luxtest_renders_commitk3x9q2ab"
             eq_refl eq_refl eq_refl).
  - apply (proj2 (proj2 (proj2 (extra_paths_appended Demo.host "" []
                                  Demo.world _ _ _ _ eq_refl eq_refl)))
             "a.png" eq_refl ltac:(discriminate) eq_refl).
Defined.

(** C10: once both repository informations are there, [commit_renders]
    asks for the temporary directory (the template branch) exactly when
    the message is the empty string, and starts [git commit -m ...] at once
    exactly when it is not.  Leaving the message out of the call, or [-m]
    off the command line, is the same as giving the empty string. *)
Theorem template_branch_iff_empty_message (host : Host) :
  (forall msg extra w w1 w2 info_usd info_luxtest,
     get_repo_info host "USD" w = (Ok info_usd, w1) ->
     get_repo_info host "luxtest" w1 = (Ok info_luxtest, w2) ->
     exists added,
       trace (snd (commit_renders host msg extra w)) = trace w2 ++ added /\
       (msg = "" <-> EvMkdtemp "luxtest_renders_commit" ∈ added) /\
       (msg <> "" <->
        exists rest,
          added = [EvPrint (RENDERS_REPO host);
                   EvPrintArgs ("git" :: "commit" :: "-m" :: rest);
                   EvRun (RENDERS_REPO host)
                     ("git" :: "commit" :: "-m" :: rest)]))
  /\
  (forall extra,
     commit_renders_call host None extra
       = commit_renders_call host (Some "") extra)
  /\
  (forall argv_without argv_with paths,
     scan_args host argv_without = Supplied None paths ->
     scan_args host argv_with = Supplied (Some "") paths ->
     main host (Some argv_without) = main host (Some argv_with)).
Proof.
  split; [|split].
  - intros msg extra w w1 w2 info_usd info_luxtest Hu Hl.
    pose proof (repo_infos_run host w _ w1 _ w2 Hu Hl) as Hparts.
    destruct msg as [|c msg'].
    + rewrite (commit_renders_template host extra w _ w2 Hparts). cbv zeta.
      assert (Hshape : forall rest : list Event,
                ("" = "" <-> EvMkdtemp "luxtest_renders_commit"
                               ∈ EvMkdtemp "luxtest_renders_commit" :: rest) /\
                ("" <> "" <->
                 exists args,
                   EvMkdtemp "luxtest_renders_commit" :: rest
                     = [EvPrint (RENDERS_REPO host);
                        EvPrintArgs ("git" :: "commit" :: "-m" :: args);
                        EvRun (RENDERS_REPO host)
                          ("git" :: "commit" :: "-m" :: args)])).
      { intros rest. split; split; try done.
        - intros _. apply list_elem_of_here.
        - intros [args Habs]. discriminate Habs. }
      destruct (mkdtemp host w2 _) as [detail|tempd];
        [exists [EvMkdtemp "luxtest_renders_commit"]; split;
           [reflexivity | apply Hshape]|].
      destruct (Fs.exists_ tempd w2);
        [exists [EvMkdtemp "luxtest_renders_commit"]; split;
           [reflexivity | apply Hshape]|].
      destruct (open_w host _ _) as [detail|]; cbn [snd];
        (eexists (EvMkdtemp "luxtest_renders_commit" :: _); split;
         [unfold ran, announced, log, Fs.rmtree, Fs.write, Fs.mkdir;
          cbn [trace]; rewrite <- ?app_assoc; reflexivity
         | apply Hshape]).
    + rewrite (commit_renders_direct host (String c msg') extra w _ w2
                 Hparts eq_refl).
      cbv zeta. cbn [snd]. eexists. split.
      * unfold ran, announced, log; cbn [trace]. rewrite <- !app_assoc.
        reflexivity.
      * split; split; try done.
        -- intros Hin. cbn in Hin.
           repeat (apply elem_of_cons in Hin as [Habs|Hin];
                   [discriminate Habs|]).
           by apply elem_of_nil in Hin.
        -- intros _. eexists. reflexivity.
  - reflexivity.
  - intros argv_without argv_with paths Hwithout Hwith.
    unfold main, parse_args. cbn [default from_option id].
    rewrite Hwithout, Hwith. reflexivity.
Qed.

Lemma template_branch_iff_empty_message_witness :
  (exists added,
     trace (snd (commit_renders Demo.host "" [] Demo.world)) =
       trace (snd (for_each (get_repo_info Demo.host) ["USD"; "luxtest"]
                     Demo.world)) ++ added /\
     EvMkdtemp "luxtest_renders_commit" ∈ added)
  /\
  main Demo.host (Some []) = main Demo.host (Some ["-m"; ""]).
Proof.
  split.
  - destruct (proj1 (template_branch_iff_empty_message Demo.host)
                "" [] Demo.world _ _ _ _ eq_refl eq_refl)
      as (added & Htrace & Hempty & _).
    exists added. split; [exact Htrace|]. apply Hempty. reflexivity.
  - apply (proj2 (proj2 (template_branch_iff_empty_message Demo.host))
             [] ["-m"; ""] [] eq_refl eq_refl).
Defined.

(** ** The command line *)

(** C2 as stated does not hold.  For an argument vector the parser
    rejects, [parse_args] raises [SystemExit(2)] before the [try] block
    is entered: [main] does not return 1 and no trace is printed.  And an
    exception that is not an [Exception], such as the [KeyboardInterrupt]
    of a user who interrupts the commit, passes [except Exception] and
    leaves [main]. *)
Lemma main_not_caught :
  main Demo.host (Some ["--no-such-option"]) Demo.world
    = (Raise (SystemExit 2), Demo.world) /\
  fst (main Demo.host (Some ["--no-such-option"]) Demo.world) <> Ok 1%Z /\
  fst (main Faults.host_interrupted (Some ["-m"; "new renders"]) Demo.world)
    = Raise KeyboardInterrupt.
Proof. split; [reflexivity|]. split; [discriminate | reflexivity]. Qed.

(** C2 (amended): for an argument vector the parser accepts, [main]
    returns 0 when [commit_renders] completes; when [commit_renders]
    raises an instance of [Exception] (a failing tool invocation gives
    [CalledProcessError], a file system error gives [OSError]) [main]
    prints the trace and returns 1; when it raises anything else
    ([KeyboardInterrupt], [SystemExit]) the exception leaves [main] as it
    is, with no trace.  A vector the parser does not accept leaves [main]
    through the parser's [SystemExit], raised outside the [try] block,
    with the parser's status and no trace. *)
Theorem main_exit_code (host : Host) (argv : option (list string))
    (w : World) :
  (forall m paths,
     scan_args host (default (sys_argv host) argv) = Supplied m paths ->
     (forall w',
        commit_renders host (default "" m) paths w = (Ok tt, w') ->
        main host argv w = (Ok 0%Z, w')) /\
     (forall e w',
        commit_renders host (default "" m) paths w = (Raise e, w') ->
        is_Exception e = true ->
        main host argv w = (Ok 1%Z, log (EvTraceback e) w')) /\
     (forall e w',
        commit_renders host (default "" m) paths w = (Raise e, w') ->
        is_Exception e = false ->
        main host argv w = (Raise e, w')))
  /\
  (forall code,
     scan_args host (default (sys_argv host) argv) = Exits code ->
     main host argv w = (Raise (SystemExit code), w))
  /\
  (forall rc cmd, is_Exception (CalledProcessError rc cmd) = true)
  /\
  (forall detail, is_Exception (OSError detail) = true).
Proof.
  split; [|split; [|split; reflexivity]].
  - intros m paths Hscan.
    assert (Hmain : main host argv w =
              match commit_renders host (default "" m) paths w with
              | (Ok _, w') => (Ok 0%Z, w')
              | (Raise e, w') =>
                  if is_Exception e then (Ok 1%Z, log (EvTraceback e) w')
                  else (Raise e, w')
              end).
    { unfold main, parse_args. rewrite Hscan.
      unfold mbind, Py_bind, try_except_Exception, mret, Py_ret, emit.
      cbn [message extra_paths get_parser message_default].
      destruct (commit_renders host _ paths w) as [[[]|e] w'];
        [reflexivity|].
      destruct (is_Exception e); reflexivity. }
    split; [|split].
    + intros w' Hrun. rewrite Hmain, Hrun. reflexivity.
    + intros e w' Hrun Hexc. rewrite Hmain, Hrun, Hexc. reflexivity.
    + intros e w' Hrun Hexc. rewrite Hmain, Hrun, Hexc. reflexivity.
  - intros code Hscan. unfold main, parse_args. rewrite Hscan. reflexivity.
Qed.

Lemma main_exit_code_witness :
  main Demo.host (Some ["-m"; "new renders"; "a.png"]) Demo.world
    = (Ok 0%Z,
       snd (commit_renders Demo.host "new renders" ["a.png"] Demo.world))
  /\
  main Demo.host_no_luxtest None Demo.world
    = (Ok 1%Z,
       log (EvTraceback (CalledProcessError 128 ["git"; "rev-parse"; "HEAD"]))
         (snd (commit_renders Demo.host_no_luxtest "" [] Demo.world)))
  /\
  main Faults.host_interrupted (Some ["-m"; "new renders"]) Demo.world
    = (Raise KeyboardInterrupt,
       snd (commit_renders Faults.host_interrupted "new renders" []
              Demo.world))
  /\
  main Demo.host (Some ["-m"]) Demo.world = (Raise (SystemExit 2), Demo.world).
Proof.
  split; [|split; [|split]].
  - apply (proj1 (proj1 (main_exit_code Demo.host
                           (Some ["-m"; "new renders"; "a.png"]) Demo.world)
                    (Some "new renders") ["a.png"] eq_refl)).
    reflexivity.
  - apply (proj1 (proj2 (proj1 (main_exit_code Demo.host_no_luxtest None
                                  Demo.world)
                           None [] eq_refl))
             (CalledProcessError 128 ["git"; "rev-parse"; "HEAD"]));
      reflexivity.
  - apply (proj2 (proj2 (proj1 (main_exit_code Faults.host_interrupted
                                  (Some ["-m"; "new renders"]) Demo.world)
                           (Some "new renders") [] eq_refl))
             KeyboardInterrupt);
      reflexivity.
  - apply (proj1 (proj2 (main_exit_code Demo.host (Some ["-m"]) Demo.world))
             2%Z).
    reflexivity.
Defined.

(** ** More about the utilities *)

Lemma chars_of_chars (l : list ascii) : Str.chars (Str.of_chars l) = l.
Proof. apply list_ascii_of_string_of_list_ascii. Qed.

Lemma of_chars_chars (s : string) : Str.of_chars (Str.chars s) = s.
Proof. apply string_of_list_ascii_of_string. Qed.

Lemma chars_app (a b : string) :
  Str.chars (a +:+ b) = Str.chars a ++ Str.chars b.
Proof.
  induction a as [|c a IH]; [reflexivity|].
  change (c :: Str.chars (a +:+ b) = c :: (Str.chars a ++ Str.chars b)).
  by f_equal.
Qed.

Lemma lstrip_chars_split (l : list ascii) :
  exists pre,
    l = pre ++ Str.lstrip_chars l /\
    Forall (fun c => Str.isspace c = true) pre.
Proof.
  induction l as [|c l (pre & Hl & Hpre)]; [by exists []|].
  cbn [Str.lstrip_chars]. destruct (Str.isspace c) eqn:Hc.
  - exists (c :: pre). split; [cbn; by f_equal | by constructor].
  - by exists [].
Qed.

Lemma lstrip_chars_head (l : list ascii) (c : ascii) (r : list ascii) :
  Str.lstrip_chars l = c :: r -> Str.isspace c = false.
Proof.
  induction l as [|x l IH]; [discriminate|].
  cbn [Str.lstrip_chars]. destruct (Str.isspace x) eqn:Hx; [exact IH|].
  by intros [= <- _].
Qed.

(** What [strip] keeps: the text between the leading and the trailing
    white space. *)
Lemma strip_splits (s : string) :
  exists pre post,
    Str.chars s = pre ++ Str.chars (Str.strip s) ++ post /\
    Forall (fun c => Str.isspace c = true) pre /\
    Forall (fun c => Str.isspace c = true) post /\
    (forall c, head (Str.chars (Str.strip s)) = Some c ->
               Str.isspace c = false) /\
    (forall c, last (Str.chars (Str.strip s)) = Some c ->
               Str.isspace c = false).
Proof.
  unfold Str.strip, Str.rstrip, Str.lstrip. rewrite !chars_of_chars.
  destruct (lstrip_chars_split (Str.chars s)) as (pre & Hs & Hpre).
  set (m := Str.lstrip_chars (Str.chars s)) in *.
  destruct (lstrip_chars_split (rev m)) as (tail & Hm & Htail).
  set (core := Str.lstrip_chars (rev m)) in *.
  assert (Hsplit : m = rev core ++ rev tail).
  { rewrite <- rev_app_distr, <- Hm. by rewrite rev_involutive. }
  exists pre, (rev tail). split; [by rewrite <- Hsplit|].
  split; [exact Hpre|]. split; [by apply Forall_rev|]. split.
  - intros c Hc. destruct (rev core) as [|x r] eqn:Hcore; [discriminate|].
    cbn in Hc. injection Hc as ->.
    apply (lstrip_chars_head (Str.chars s) c (r ++ rev tail)).
    fold m. by rewrite Hsplit.
  - intros c Hc. destruct core as [|x r] eqn:Hcore.
    + discriminate.
    + cbn [rev] in Hc. rewrite last_snoc in Hc. injection Hc as ->.
      by apply (lstrip_chars_head (rev m) c r).
Qed.

(** X1: what [git_stdout] returns is the child's output without its
    leading and trailing white space: the output is some white space, the
    returned text, and some white space again, and the returned text
    neither begins nor ends with a white-space character.  A value is
    returned only when the child exited with status 0. *)
Theorem git_stdout_stripped (host : Host) (repo_dir : string)
    (args : list string) (w w' : World) (text : string) :
  git_stdout host repo_dir args w = (Ok text, w') ->
  exists out pre post,
    child host (announced repo_dir args w) repo_dir ("git" :: args)
      = Exited 0 out /\
    Str.chars out = pre ++ Str.chars text ++ post /\
    Forall (fun c => Str.isspace c = true) pre /\
    Forall (fun c => Str.isspace c = true) post /\
    (forall c, head (Str.chars text) = Some c -> Str.isspace c = false) /\
    (forall c, last (Str.chars text) = Some c -> Str.isspace c = false).
Proof.
  rewrite git_stdout_runs. unfold checked.
  destruct (child host _ _ _) as [rc out|detail|e]; [|discriminate..].
  destruct (rc =? 0)%Z eqn:Hrc; [|discriminate].
  intros [= <- _]. apply Z.eqb_eq in Hrc as ->.
  destruct (strip_splits out) as (pre & post & H).
  exists out, pre, post. split; [reflexivity | exact H].
Qed.

Lemma git_stdout_stripped_witness :
  exists out pre post,
    child Demo.host (announced "/work/luxtest" ["rev-parse"; "HEAD"] Demo.world)
      "/work/luxtest" ["git"; "rev-parse"; "HEAD"] = Exited 0 out /\
    Str.chars out = pre ++ Str.chars "4f2a9c1" ++ post /\
    Forall (fun c => Str.isspace c = true) pre /\
    Forall (fun c => Str.isspace c = true) post /\
    (forall c, head (Str.chars "4f2a9c1") = Some c -> Str.isspace c = false) /\
    (forall c, last (Str.chars "4f2a9c1") = Some c -> Str.isspace c = false).
Proof.
  apply (git_stdout_stripped Demo.host "/work/luxtest" ["rev-parse"; "HEAD"]
           Demo.world _ "4f2a9c1" eq_refl).
Defined.



(** ** More about the repository information *)

(** X3: for a name that is not configured, [get_repo_info] raises
    [KeyError] with that name and does nothing else: nothing is printed
    and no child process is started. *)
Theorem get_repo_info_unknown_name (host : Host) (repo_name : string)
    (w : World) :
  repo_name <> "USD" -> repo_name <> "luxtest" ->
  get_repo_info host repo_name w = (Raise (KeyError repo_name), w).
Proof.
  intros Husd Hlux. rewrite get_repo_info_runs.
  unfold REPO_NAMES_TO_DIRS. cbn [dict_get].
  destruct (String.eqb_spec "USD" repo_name) as [Heq|_]; [congruence|].
  destruct (String.eqb_spec "luxtest" repo_name) as [Heq|_]; [congruence|].
  reflexivity.
Qed.

Lemma get_repo_info_unknown_name_witness :
  get_repo_info Demo.host "renders" Demo.world
    = (Raise (KeyError "renders"), Demo.world).
Proof.
  apply (get_repo_info_unknown_name Demo.host "renders" Demo.world);
    discriminate.
Defined.

(** X4: when the child process cannot be started in the directory of a
    configured name (no [git], no such directory), [get_repo_info] raises
    the [OSError] of that attempt; a failing [rev-parse] is the only
    attempt made, the subject line is not asked for. *)
Theorem get_repo_info_not_started (host : Host) (repo_name repo_dir : string)
    (w : World) (detail : string) :
  dict_get (REPO_NAMES_TO_DIRS host) repo_name = Some repo_dir ->
  child host (announced repo_dir ["rev-parse"; "HEAD"] w) repo_dir
    ["git"; "rev-parse"; "HEAD"] = NotStarted detail ->
  get_repo_info host repo_name w =
    (Raise (OSError detail),
     mkWorld (fs_dirs w) (fs_files w)
       (trace w ++ [EvPrint repo_dir;
                    EvPrintArgs ["git"; "rev-parse"; "HEAD"];
                    EvRun repo_dir ["git"; "rev-parse"; "HEAD"]])).
Proof.
  intros Hdir Hchild. rewrite get_repo_info_runs, Hdir. cbv zeta.
  unfold rev_parse_HEAD. rewrite Hchild. cbn [checked].
  unfold ran, announced, log; cbn [trace fs_dirs fs_files].
  rewrite <- !app_assoc. reflexivity.
Qed.

Lemma get_repo_info_not_started_witness :
  get_repo_info Faults.host_no_git "USD" Demo.world =
    (Raise (OSError "No such file or directory: 'git'"),
     mkWorld ∅ ∅ [EvPrint "/work/usd-ci/USD";
                  EvPrintArgs ["git"; "rev-parse"; "HEAD"];
                  EvRun "/work/usd-ci/USD" ["git"; "rev-parse"; "HEAD"]]).
Proof.
  apply (get_repo_info_not_started Faults.host_no_git "USD" "/work/usd-ci/USD"
           Demo.world "No such file or directory: 'git'" eq_refl eq_refl).
Defined.

(** X5: [get_repo_info] only reads.  In every outcome, for every name,
    the file system is as before, the new events are prints and child
    processes, at most two child processes are started, and each of them
    runs in the directory configured for the name. *)
Theorem get_repo_info_reads_only (host : Host) (repo_name : string)
    (w : World) :
  let w' := snd (get_repo_info host repo_name w) in
  fs_dirs w' = fs_dirs w /\ fs_files w' = fs_files w /\
  exists added,
    trace w' = trace w ++ added /\
    Forall (fun ev => creates ev = false) added /\
    length (run_dirs added) <= 2 /\
    (forall d, d ∈ run_dirs added ->
               dict_get (REPO_NAMES_TO_DIRS host) repo_name = Some d).
Proof.
  cbv zeta. rewrite get_repo_info_runs.
  destruct (dict_get _ _) as [repo_dir|].
  - cbv zeta.
    assert (Hin1 : forall d, d ∈ [repo_dir] -> Some repo_dir = Some d).
    { intros d Hd. apply list_elem_of_singleton in Hd. by subst. }
    assert (Hin2 : forall d, d ∈ [repo_dir; repo_dir] ->
                             Some repo_dir = Some d).
    { intros d Hd. apply elem_of_cons in Hd as [->|Hd]; [done|]. by apply Hin1. }
    destruct (checked _ _); cbn [snd].
    + destruct (checked _ _); cbn [snd];
        (split; [reflexivity|]; split; [reflexivity|];
         exists [EvPrint repo_dir; EvPrintArgs ("git" :: rev_parse_HEAD);
                 EvRun repo_dir ("git" :: rev_parse_HEAD);
                 EvPrint repo_dir; EvPrintArgs ("git" :: log_subject_HEAD);
                 EvRun repo_dir ("git" :: log_subject_HEAD)];
         split; [unfold ran, announced, log; cbn [trace];
                 by rewrite <- !app_assoc|];
         split; [by repeat constructor|];
         split; [cbn; lia | exact Hin2]).
    + split; [reflexivity|]; split; [reflexivity|].
      exists [EvPrint repo_dir; EvPrintArgs ("git" :: rev_parse_HEAD);
              EvRun repo_dir ("git" :: rev_parse_HEAD)].
      split; [unfold ran, announced, log; cbn [trace];
              by rewrite <- !app_assoc|].
      split; [by repeat constructor|].
      split; [cbn; lia | exact Hin1].
  - cbn [snd]. split; [reflexivity|]; split; [reflexivity|].
    exists []. split; [by rewrite app_nil_r|]. split; [constructor|].
    split; [cbn; lia|]. intros d Hd. by apply elem_of_nil in Hd.
Qed.

Lemma get_repo_info_reads_only_witness :
  let w' := snd (get_repo_info Demo.host "USD" Demo.world) in
  fs_dirs w' = fs_dirs Demo.world /\ fs_files w' = fs_files Demo.world /\
  exists added,
    trace w' = trace Demo.world ++ added /\
    Forall (fun ev => creates ev = false) added /\
    length (run_dirs added) <= 2 /\
    (forall d, d ∈ run_dirs added ->
               dict_get (REPO_NAMES_TO_DIRS Demo.host) "USD" = Some d).
Proof. apply (get_repo_info_reads_only Demo.host "USD" Demo.world). Defined.

(** ** More about the commit *)

(** X6: when the information of a repository cannot be had,
    [commit_renders] ends there with the same exception, with or without
    a message: after a failure for USD, luxtest is not asked; after a
    failure for either, no temporary directory is requested and no commit
    is started. *)
Theorem commit_renders_stops_without_info (host : Host) (msg : string)
    (extra : list string) (w : World) (e : PyExc) :
  (forall w1,
     get_repo_info host "USD" w = (Raise e, w1) ->
     commit_renders host msg extra w = (Raise e, w1))
  /\
  (forall info_usd w1 w2,
     get_repo_info host "USD" w = (Ok info_usd, w1) ->
     get_repo_info host "luxtest" w1 = (Raise e, w2) ->
     commit_renders host msg extra w = (Raise e, w2)).
Proof.
  split.
  - intros w1 Hu. unfold commit_renders, dict_keys, REPO_NAMES_TO_DIRS.
    cbn [map fst for_each]. unfold mbind, Py_bind. rewrite Hu. reflexivity.
  - intros info_usd w1 w2 Hu Hl.
    unfold commit_renders, dict_keys, REPO_NAMES_TO_DIRS.
    cbn [map fst for_each]. unfold mbind, Py_bind. rewrite Hu, Hl.
    reflexivity.
Qed.

Lemma commit_renders_stops_without_info_witness :
  commit_renders Faults.host_no_git "new renders" [] Demo.world
    = (Raise (OSError "No such file or directory: 'git'"),
       snd (get_repo_info Faults.host_no_git "USD" Demo.world))
  /\
  commit_renders Demo.host_no_luxtest "" [] Demo.world
    = (Raise (CalledProcessError 128 ["git"; "rev-parse"; "HEAD"]),
       snd (get_repo_info Demo.host_no_luxtest "luxtest"
              (snd (get_repo_info Demo.host_no_luxtest "USD" Demo.world)))).
Proof.
  split.
  - apply (proj1 (commit_renders_stops_without_info Faults.host_no_git
                    "new renders" [] Demo.world _)).
    reflexivity.
  - apply (proj2 (commit_renders_stops_without_info Demo.host_no_luxtest
                    "" [] Demo.world _) _ _ _ eq_refl).
    reflexivity.
Defined.

(** X7: without a message, when no temporary directory can be made the
    call raises that [OSError] with nothing made, nothing removed and no
    commit started; when the directory is there but the template file
    cannot be opened the call raises that [OSError], no commit is
    started, and the directory is removed all the same. *)
Theorem template_setup_fails (host : Host) (extra : list string)
    (w w1 w2 : World) (info_usd info_luxtest detail : string) :
  get_repo_info host "USD" w = (Ok info_usd, w1) ->
  get_repo_info host "luxtest" w1 = (Ok info_luxtest, w2) ->
  (mkdtemp host w2 "luxtest_renders_commit" = inl detail ->
   commit_renders host "" extra w =
     (Raise (OSError detail),
      mkWorld (fs_dirs w2) (fs_files w2)
        (trace w2 ++ [EvMkdtemp "luxtest_renders_commit"])))
  /\
  (forall tempd,
     mkdtemp host w2 "luxtest_renders_commit" = inr tempd ->
     Fs.exists_ tempd w2 = false ->
     let template_path := PosixPath.join tempd ["git_commit_template.txt"] in
     let template :=
       "<insert custom message here>" +:+ blank +:+ info_usd +:+ blank
         +:+ info_luxtest in
     open_w host
       (Fs.mkdir tempd (log (EvMkdtemp "luxtest_renders_commit") w2))
       template_path = Some detail ->
     let '(result, w') := commit_renders host "" extra w in
     result = Raise (OSError detail) /\
     trace w' =
       trace w2 ++ [EvMkdtemp "luxtest_renders_commit";
                    EvWrite template_path template;
                    EvRmtree tempd] /\
     (tempd ∉ fs_dirs w') /\
     fs_files w' !! template_path = None).
Proof.
  intros Hu Hl.
  pose proof (repo_infos_run host w _ w1 _ w2 Hu Hl) as Hparts.
  split.
  - intros Htemp. rewrite (commit_renders_template host extra w _ w2 Hparts).
    cbv zeta. rewrite Htemp. reflexivity.
  - intros tempd Htemp Hfresh template_path template Hopen.
    rewrite (commit_renders_template host extra w _ w2 Hparts).
    cbv zeta. rewrite Htemp, Hfresh, join_three.
    fold template_path. fold template. rewrite Hopen.
    split; [reflexivity|]. split.
    + unfold log, Fs.rmtree, Fs.mkdir; cbn [trace].
      by rewrite <- !app_assoc.
    + split.
      * apply rmtree_dir_gone.
      * apply rmtree_files_gone. by apply under_join.
Qed.

Lemma template_setup_fails_witness :
  fst (commit_renders Faults.host_no_tmp "" [] Demo.world)
    = Raise (OSError "No usable temporary directory found")
  /\
  (let '(result, w') := commit_renders Faults.host_no_open "" [] Demo.world in
   result = Raise (OSError "No space left on device") /\
   run_dirs (trace w')
     = ["/work/usd-ci/USD"; "/work/usd-ci/USD";
        "/work/luxtest"; "/work/luxtest"] /\
   "/tmp/luxtest_renders_commitk3x9q2ab" ∉ fs_dirs w').
Proof.
  split.
  - rewrite (proj1 (template_setup_fails Faults.host_no_tmp [] Demo.world
                      _ _ _ _ "No usable temporary directory found"
                      eq_refl eq_refl) eq_refl).
    reflexivity.
  - pose proof (proj2 (template_setup_fails Faults.host_no_open [] Demo.world
                         _ _ _ _ "No space left on device" eq_refl eq_refl)
                  "/tmp/luxtest_renders_commitk3x9q2ab"
                  eq_refl eq_refl eq_refl) as H.
    destruct (commit_renders Faults.host_no_open "" [] Demo.world)
      as [result w'].
    destruct H as (Hres & Htrace & Hdir & _).
    split; [exact Hres|]. split; [|exact Hdir].
    rewrite Htrace. reflexivity.
Defined.

Lemma get_repo_info_talks (host : Host) (repo_name : string) (w : World) :
  exists added,
    trace (snd (get_repo_info host repo_name w)) = trace w ++ added /\
    Forall (fun ev => talks ev = true) added.
Proof.
  rewrite get_repo_info_runs.
  destruct (dict_get _ _) as [repo_dir|];
    [|exists []; split; [by rewrite app_nil_r | constructor]].
  cbv zeta. destruct (checked _ _); cbn [snd].
  - destruct (checked _ _); cbn [snd];
      (eexists; split;
       [unfold ran, announced, log; cbn [trace]; rewrite <- !app_assoc;
        reflexivity
       | by repeat constructor]).
  - eexists; split;
      [unfold ran, announced, log; cbn [trace]; rewrite <- !app_assoc;
       reflexivity
      | by repeat constructor].
Qed.

Lemma repo_infos_talk (host : Host) (w : World) :
  exists added,
    trace (snd (for_each (get_repo_info host) ["USD"; "luxtest"] w))
      = trace w ++ added /\
    Forall (fun ev => talks ev = true) added.
Proof.
  cbn [for_each]. unfold mbind, Py_bind.
  destruct (get_repo_info_talks host "USD" w) as (a1 & Ht1 & Ha1).
  destruct (get_repo_info host "USD" w) as [[info_usd|e] w1]; cbn [snd] in *;
    [|by exists a1].
  destruct (get_repo_info_talks host "luxtest" w1) as (a2 & Ht2 & Ha2).
  destruct (get_repo_info host "luxtest" w1) as [[info_luxtest|e] w2];
    cbn [snd] in *;
    (exists (a1 ++ a2); split;
     [change (trace w2 = trace w ++ a1 ++ a2);
      by rewrite Ht2, Ht1, app_assoc
     | by apply Forall_app]).
Qed.

Lemma talks_member (added : list Event) (ev : Event) :
  Forall (fun ev => talks ev = true) added -> ev ∈ added -> talks ev = true.
Proof. intros Hall Hin. by apply (proj1 (Forall_forall _ _) Hall). Qed.

(** Find where an event of the goal's hypothesis sits in the list of new
    events: not among the prints and child processes of the repository
    information, so at one of the places listed after them. *)
Ltac sift_events Hquiet :=
  match goal with
  | Hin : _ ∈ _ ++ _ |- _ =>
      apply elem_of_app in Hin as [Hin|Hin];
      [apply Hquiet in Hin; discriminate Hin|];
      repeat (apply elem_of_cons in Hin as [Heq|Hin];
              [try discriminate Heq|]);
      try (by apply elem_of_nil in Hin)
  end.

(** X8: what [commit_renders] itself asks of the file system.  With a
    message it asks for nothing.  Without one, the only directory it asks
    for is the temporary one, the only file it writes is
    [git_commit_template.txt] in the directory the host handed out, and
    the only tree it removes is that directory.  This holds however the
    call ends. *)
Theorem commit_renders_requests (host : Host) (msg : string)
    (extra : list string) (w : World) :
  let w2 := snd (for_each (get_repo_info host) ["USD"; "luxtest"] w) in
  exists added,
    trace (snd (commit_renders host msg extra w)) = trace w ++ added /\
    (forall prefix, EvMkdtemp prefix ∈ added ->
       msg = "" /\ prefix = "luxtest_renders_commit") /\
    (forall p text, EvWrite p text ∈ added ->
       msg = "" /\
       exists tempd,
         mkdtemp host w2 "luxtest_renders_commit" = inr tempd /\
         p = PosixPath.join tempd ["git_commit_template.txt"] /\
         Fs.under tempd p = true) /\
    (forall d, EvRmtree d ∈ added ->
       msg = "" /\ mkdtemp host w2 "luxtest_renders_commit" = inr d).
Proof.
  intros w2. destruct (repo_infos_talk host w) as (infos & Hinfos & Htalk).
  fold w2 in Hinfos. subst w2.
  change ["USD"; "luxtest"] with (dict_keys (REPO_NAMES_TO_DIRS host)) in *.
  assert (Hquiet : forall ev, ev ∈ infos -> talks ev = true)
    by (intros ev; apply talks_member, Htalk).
  destruct (for_each _ _ w) as [[parts|e] w2] eqn:Hparts; cbn [snd] in *.
  - destruct msg as [|c msg'].
    + rewrite (commit_renders_template host extra w parts w2 Hparts).
      cbv zeta.
      destruct (mkdtemp host w2 _) as [detail|tempd] eqn:Htemp.
      { exists (infos ++ [EvMkdtemp "luxtest_renders_commit"]).
        split; [cbn [snd log trace]; by rewrite Hinfos, <- app_assoc|].
        split; [|split]; intros; sift_events Hquiet.
        by injection Heq as ->. }
      destruct (Fs.exists_ tempd w2).
      { exists (infos ++ [EvMkdtemp "luxtest_renders_commit"]).
        split; [cbn [snd log trace]; by rewrite Hinfos, <- app_assoc|].
        split; [|split]; intros; sift_events Hquiet.
        by injection Heq as ->. }
      destruct (open_w host _ _) as [detail|]; cbn [snd];
        (eexists (infos ++ EvMkdtemp "luxtest_renders_commit" :: _); split;
         [unfold ran, announced, log, Fs.rmtree, Fs.write, Fs.mkdir;
          cbn [trace]; rewrite Hinfos, <- ?app_assoc; reflexivity|]);
        (split; [|split]); intros; sift_events Hquiet.
      * by injection Heq as ->.
      * injection Heq as -> ->. split; [reflexivity|].
        exists tempd. repeat split. by apply under_join.
      * by injection Heq as ->.
      * by injection Heq as ->.
      * injection Heq as -> ->. split; [reflexivity|].
        exists tempd. repeat split. by apply under_join.
      * by injection Heq as ->.
    + rewrite (commit_renders_direct host (String c msg') extra w parts w2
                 Hparts eq_refl).
      cbv zeta. cbn [snd].
      eexists (infos ++ _). split;
        [unfold ran, announced, log; cbn [trace];
         rewrite Hinfos, <- ?app_assoc; reflexivity|].
      split; [|split]; intros; sift_events Hquiet.
  - assert (Hrun : commit_renders host msg extra w = (Raise e, w2)).
    { unfold commit_renders. unfold mbind at 1. unfold Py_bind at 1.
      by rewrite Hparts. }
    rewrite Hrun. cbn [snd]. exists infos. split; [exact Hinfos|].
    split; [|split]; intros;
      match goal with
      | Hin : _ ∈ infos |- _ => apply Hquiet in Hin; discriminate Hin
      end.
Qed.

Lemma commit_renders_requests_witness :
  exists added,
    trace (snd (commit_renders Demo.host "" [] Faults.world_with_render))
      = trace Faults.world_with_render ++ added /\
    (forall p text, EvWrite p text ∈ added ->
       p = "/tmp/luxtest_renders_commitk3x9q2ab/git_commit_template.txt").
Proof.
  destruct (commit_renders_requests Demo.host "" [] Faults.world_with_render)
    as (added & Htrace & _ & Hwrite & _).
  exists added. split; [exact Htrace|].
  intros p text Hin.
  destruct (Hwrite p text Hin) as (_ & tempd & Htemp & -> & _).
  vm_compute in Htemp. injection Htemp as <-. reflexivity.
Defined.

(** ** The module as a script, run *)



(** ** More about paths *)

Lemma drop_to_slash_app (l1 l2 : list ascii) :
  "/"%char ∉ l1 ->
  PosixPath.drop_to_slash (l1 ++ l2) = PosixPath.drop_to_slash l2.
Proof.
  induction l1 as [|c l1 IH]; intros Hfree; [reflexivity|].
  cbn [app PosixPath.drop_to_slash].
  destruct (Ascii.eqb_spec c "/"%char) as [->|_].
  - exfalso. apply Hfree. apply list_elem_of_here.
  - apply IH. intros Hin. apply Hfree. by apply list_elem_of_further.
Qed.

Lemma drop_slashes_all (l : list ascii) :
  Forall (fun c => c = "/"%char) l -> PosixPath.drop_slashes l = [].
Proof.
  induction 1 as [|c l -> _ IH]; [reflexivity|]. exact IH.
Qed.

Lemma drop_slashes_nil (l : list ascii) :
  PosixPath.drop_slashes l = [] -> Forall (fun c => c = "/"%char) l.
Proof.
  induction l as [|c l IH]; [constructor|].
  cbn [PosixPath.drop_slashes].
  destruct (Ascii.eqb_spec c "/"%char) as [->|_]; [|discriminate].
  intros Hl. constructor; [reflexivity | by apply IH].
Qed.

Lemma drop_slashes_head (l : list ascii) (c : ascii) (r : list ascii) :
  PosixPath.drop_slashes l = c :: r -> Ascii.eqb c "/"%char = false.
Proof.
  induction l as [|x l IH]; [discriminate|].
  cbn [PosixPath.drop_slashes].
  destruct (Ascii.eqb x "/"%char) eqn:Hx; [exact IH|].
  by intros [= <- _].
Qed.

Lemma startswith_slash_free (name : string) :
  "/"%char ∉ Str.chars name -> Str.startswith "/" name = false.
Proof.
  destruct name as [|c name]; [reflexivity|]. intros Hfree.
  unfold Str.startswith. cbn [String.prefix].
  destruct (ascii_dec "/" c) as [<-|_]; [|reflexivity].
  exfalso. apply Hfree. apply list_elem_of_here.
Qed.

Lemma slash_free_rev (l : list ascii) : "/"%char ∉ l -> "/"%char ∉ rev l.
Proof.
  intros Hfree Hin. apply Hfree.
  apply list_elem_of_In, in_rev. by apply list_elem_of_In.
Qed.

Lemma join_then_dirname (d name : string) :
  Str.endswith_slash d = false
    \/ Forall (fun c => c = "/"%char) (Str.chars d) ->
  "/"%char ∉ Str.chars name ->
  PosixPath.dirname (PosixPath.join d [name]) = d.
Proof.
  intros Hd Hfree. cbn [PosixPath.join fold_left]. unfold PosixPath.join1.
  rewrite (startswith_slash_free name Hfree).
  pose proof (slash_free_rev _ Hfree) as Hrev.
  destruct (Str.endswith_slash d) eqn:Hslash.
  - destruct Hd as [Hd|Hd]; [discriminate|].
    rewrite orb_true_r. unfold PosixPath.dirname.
    rewrite chars_app, rev_app_distr, drop_to_slash_app by exact Hrev.
    unfold Str.endswith_slash in Hslash.
    destruct (rev (Str.chars d)) as [|c r] eqn:Hchars; [discriminate|].
    apply Ascii.eqb_eq in Hslash as ->.
    cbn [PosixPath.drop_to_slash]. change ("/" =? "/")%char with true.
    cbv beta iota.
    rewrite drop_slashes_all by (rewrite <- Hchars; by apply Forall_rev).
    rewrite <- Hchars, rev_involutive. apply of_chars_chars.
  - rewrite orb_false_r. destruct d as [|c0 d0] eqn:Hdeq.
    + cbn [Str.truthy negb]. change ("" +:+ name) with name.
      unfold PosixPath.dirname.
      rewrite <- (app_nil_r (rev (Str.chars name))).
      rewrite drop_to_slash_app by exact Hrev. reflexivity.
    + cbn [Str.truthy negb]. rewrite <- Hdeq in *. clear Hd.
      unfold PosixPath.dirname.
      rewrite !chars_app, !rev_app_distr.
      change (rev (Str.chars "/")) with ["/"%char].
      rewrite <- app_assoc, drop_to_slash_app by exact Hrev.
      cbn [app PosixPath.drop_to_slash]. change ("/" =? "/")%char with true.
      cbv beta iota. cbn [PosixPath.drop_slashes].
      change ("/" =? "/")%char with true. cbv beta iota.
      unfold Str.endswith_slash in Hslash.
      destruct (rev (Str.chars d)) as [|c r] eqn:Hchars.
      * apply (f_equal (@rev ascii)) in Hchars.
        rewrite rev_involutive in Hchars. subst d. discriminate Hchars.
      * cbn [PosixPath.drop_slashes]. rewrite Hslash.
        rewrite <- Hchars, rev_involutive. apply of_chars_chars.
Qed.

(** X12: taking the directory of a joined path gives the directory back:
    for a name without a slash and a directory that does not end in a
    slash (or is made of slashes only, like the root),
    [dirname(join(d, name)) = d]. *)
Theorem dirname_join (d name : string) :
  Str.endswith_slash d = false
    \/ Forall (fun c => c = "/"%char) (Str.chars d) ->
  "/"%char ∉ Str.chars name ->
  PosixPath.dirname (PosixPath.join d [name]) = d.
Proof. apply join_then_dirname. Qed.

Lemma dirname_join_witness :
  PosixPath.dirname
    (PosixPath.join "/tmp/luxtest_renders_commitk3x9q2ab"
       ["git_commit_template.txt"])
    = "/tmp/luxtest_renders_commitk3x9q2ab"
  /\ PosixPath.dirname (PosixPath.join "/" ["work"]) = "/".
Proof.
  split.
  - apply (dirname_join "/tmp/luxtest_renders_commitk3x9q2ab"
             "git_commit_template.txt").
    + left. reflexivity.
    + vm_compute. intros Hin.
      repeat (apply elem_of_cons in Hin as [Habs|Hin];
              [discriminate Habs|]).
      by apply elem_of_nil in Hin.
  - apply (dirname_join "/" "work").
    + right. repeat constructor.
    + vm_compute. intros Hin.
      repeat (apply elem_of_cons in Hin as [Habs|Hin];
              [discriminate Habs|]).
      by apply elem_of_nil in Hin.
Defined.

(** What [dirname] returns never ends in a slash, unless it is made of
    slashes only. *)
Lemma dirname_clean (p : string) :
  Str.endswith_slash (PosixPath.dirname p) = false
    \/ Forall (fun c => c = "/"%char) (Str.chars (PosixPath.dirname p)).
Proof.
  unfold PosixPath.dirname.
  destruct (PosixPath.drop_slashes _) as [|c r] eqn:Hdrop.
  - right. rewrite chars_of_chars. apply Forall_rev.
    by apply drop_slashes_nil.
  - left. unfold Str.endswith_slash.
    rewrite chars_of_chars, rev_involutive.
    by apply drop_slashes_head in Hdrop.
Qed.

Lemma endswith_slash_app (a b : string) (c : ascii) (r : list ascii) :
  rev (Str.chars b) = c :: r ->
  Str.endswith_slash (a +:+ b) = Ascii.eqb c "/"%char.
Proof.
  intros Hb. unfold Str.endswith_slash.
  by rewrite chars_app, rev_app_distr, Hb.
Qed.

(** X13: the default place of the USD repository is [usd-ci/USD] next to
    the luxtest repository, wherever the script lies: its parent is
    [usd-ci] joined to the parent of the luxtest repository, and its
    grandparent is the parent of the luxtest repository. *)
Theorem default_usd_repo_sibling (host : Host) :
  PosixPath.dirname (DEFAULT_USD_REPO host)
    = PosixPath.join (PosixPath.dirname (LUXTEST_REPO host)) ["usd-ci"]
  /\
  PosixPath.dirname (PosixPath.dirname (DEFAULT_USD_REPO host))
    = PosixPath.dirname (LUXTEST_REPO host).
Proof.
  set (parent := PosixPath.dirname (LUXTEST_REPO host)).
  assert (Hfree : forall name : string,
            name = "usd-ci" \/ name = "USD" -> "/"%char ∉ Str.chars name).
  { intros name [-> | ->]; vm_compute; intros Hin;
      repeat (apply elem_of_cons in Hin as [Habs|Hin];
              [discriminate Habs|]);
      by apply elem_of_nil in Hin. }
  assert (Hmid : Str.endswith_slash (PosixPath.join parent ["usd-ci"]) = false).
  { cbn [PosixPath.join fold_left]. unfold PosixPath.join1.
    rewrite (startswith_slash_free "usd-ci") by (apply Hfree; by left).
    destruct (negb (Str.truthy parent) || Str.endswith_slash parent).
    - by rewrite (endswith_slash_app parent "usd-ci" "i"%char
                    (rev (Str.chars "usd-c"))).
    - rewrite <- str_app_assoc.
      by rewrite (endswith_slash_app (parent +:+ "/") "usd-ci" "i"%char
                    (rev (Str.chars "usd-c"))). }
  assert (Hfirst : PosixPath.dirname (DEFAULT_USD_REPO host)
                   = PosixPath.join parent ["usd-ci"]).
  { unfold DEFAULT_USD_REPO. fold parent.
    change (PosixPath.join parent ["usd-ci"; "USD"])
      with (PosixPath.join (PosixPath.join parent ["usd-ci"]) ["USD"]).
    apply join_then_dirname; [by left | apply Hfree; by right]. }
  split; [exact Hfirst|].
  rewrite Hfirst. apply join_then_dirname; [|apply Hfree; by left].
  apply dirname_clean.
Qed.

(** ** Blank output *)

Lemma lstrip_chars_blank (l : list ascii) :
  Forall (fun c => Str.isspace c = true) l -> Str.lstrip_chars l = [].
Proof.
  induction 1 as [|c l Hc _ IH]; [reflexivity|].
  cbn [Str.lstrip_chars]. by rewrite Hc.
Qed.

(** X14: when the child exits with status 0 and prints nothing, or white
    space only, [git_stdout] returns the empty text; [get_repo_info] then
    has an empty line in the place of the subject or the hash. *)
Theorem git_stdout_blank (host : Host) (repo_dir : string)
    (args : list string) (w : World) (out : string) :
  child host (announced repo_dir args w) repo_dir ("git" :: args)
    = Exited 0 out ->
  Forall (fun c => Str.isspace c = true) (Str.chars out) ->
  git_stdout host repo_dir args w = (Ok "", ran repo_dir args w).
Proof.
  intros Hchild Hblank. rewrite git_stdout_runs, Hchild.
  cbn [checked Z.eqb]. unfold Str.strip, Str.rstrip, Str.lstrip.
  by rewrite (lstrip_chars_blank _ Hblank).
Qed.

Lemma git_stdout_blank_witness :
  git_stdout Demo.host "/work/luxtest/renders" ["status"; "--short"] Demo.world
    = (Ok "", ran "/work/luxtest/renders" ["status"; "--short"] Demo.world).
Proof.
  apply (git_stdout_blank Demo.host "/work/luxtest/renders"
           ["status"; "--short"] Demo.world "" eq_refl).
  constructor.
Defined.
